(** * EduQuiz AI: the quiz session state machine of [src/App.tsx]

    A shallow embedding of the React component [App]: the [QuizState]
    record of [types.ts], the five handlers that mutate it
    ([generateMCQs], [handleAnswerSelect], [nextQuestion], [resetQuiz],
    [handleSignIn]) and the conditions under which the JSX renders the
    controls that call them.

    Two layers are kept apart:
    - the _handlers_, as pure functions on [QuizState]; each takes the
      [state] captured by the closure of the current render and the [prev]
      value handed to the updater of [setState], as in the source;
    - the _application_, a record of the three [useState] cells plus the
      pending generation requests, the alerts shown and the elements that
      an [AnimatePresence] keeps on screen after the render dropped them,
      driven by user events that fire a handler only where its control is
      on screen.

    JavaScript numbers are modelled by [Z]: indices, scores and lengths
    are small integers, and [correctAnswer] is declared [Type.INTEGER] in
    the response schema.  Strings are lists of UTF-16 code units. *)

From Stdlib Require Import ZArith NArith List Bool Lia String Ascii.
Import ListNotations.
Open Scope Z_scope.

(* ================================================================== *)
(** ** JavaScript strings *)
(* ================================================================== *)

Module JsString.

(** A string is its sequence of UTF-16 code units. *)
Definition t := list N.

Definition of_string (s : string) : t :=
  map N_of_ascii (list_ascii_of_string s).

Definition eqb (a b : t) : bool :=
  if list_eq_dec N.eq_dec a b then true else false.

(** ECMAScript [WhiteSpace] and [LineTerminator] code points, the ones
    [String.prototype.trim] strips. *)
Definition isWhiteSpace (c : N) : bool :=
  ((9 <=? c) && (c <=? 13) || (c =? 32) || (c =? 160) || (c =? 5760)
   || (8192 <=? c) && (c <=? 8202) || (c =? 8232) || (c =? 8233)
   || (c =? 8239) || (c =? 8287) || (c =? 12288) || (c =? 65279))%N.

Fixpoint trimStart (s : t) : t :=
  match s with
  | [] => []
  | c :: rest => if isWhiteSpace c then trimStart rest else s
  end.

Definition trimEnd (s : t) : t := rev (trimStart (rev s)).

Definition trim (s : t) : t := trimEnd (trimStart s).

(** [ToBoolean] of a string: only the empty string is falsy. *)
Definition truthy (s : t) : bool :=
  match s with [] => false | _ :: _ => true end.

End JsString.

Definition jsstring : Type := JsString.t.
Definition str : string -> jsstring := JsString.of_string.

(* ================================================================== *)
(** ** Data model ([types.ts]) *)
(* ================================================================== *)

(** The string-literal union ['11' | '12']. *)
Inductive Grade : Type := G11 | G12.

Record MCQ : Type := {
  question : jsstring;
  options : list jsstring;
  correctAnswer : Z;
  explanation : jsstring
}.

(** [QuizResult]; the field names [topic], [grade] and [score] are taken
    by [QuizState], so they carry a prefix here.  [result_grade] is
    [state.grade as '11' | '12']: the cast does not change the value, which
    may still be [null]. *)
Record QuizResult : Type := {
  result_topic : jsstring;
  result_grade : option Grade;
  result_score : Z;
  totalQuestions : Z;
  date : jsstring
}.

Record QuizState : Type := {
  topic : jsstring;
  grade : option Grade;
  questions : list MCQ;
  currentQuestionIndex : Z;
  score : Z;
  isFinished : bool;
  isLoading : bool;
  selectedAnswer : option Z;
  isAuthenticated : bool;
  history : list QuizResult
}.

Definition INITIAL_STATE : QuizState := {|
  topic := [];
  grade := None;
  questions := [];
  currentQuestionIndex := 0;
  score := 0;
  isFinished := false;
  isLoading := false;
  selectedAnswer := None;
  isAuthenticated := false;
  history := []
|}.

Inductive View : Type :=
  home | dashboard | subjects | analytics | signin | privacy | terms | contact.

Definition View_eqb (a b : View) : bool :=
  match a, b with
  | home, home | dashboard, dashboard | subjects, subjects
  | analytics, analytics | signin, signin | privacy, privacy
  | terms, terms | contact, contact => true
  | _, _ => false
  end.

(** *** Object spread: [{ ...prev, field: value }] *)

Definition set_topic (v : jsstring) (s : QuizState) : QuizState :=
  {| topic := v; grade := grade s; questions := questions s;
     currentQuestionIndex := currentQuestionIndex s; score := score s;
     isFinished := isFinished s; isLoading := isLoading s;
     selectedAnswer := selectedAnswer s;
     isAuthenticated := isAuthenticated s; history := history s |}.

Definition set_grade (v : option Grade) (s : QuizState) : QuizState :=
  {| topic := topic s; grade := v; questions := questions s;
     currentQuestionIndex := currentQuestionIndex s; score := score s;
     isFinished := isFinished s; isLoading := isLoading s;
     selectedAnswer := selectedAnswer s;
     isAuthenticated := isAuthenticated s; history := history s |}.

Definition set_questions (v : list MCQ) (s : QuizState) : QuizState :=
  {| topic := topic s; grade := grade s; questions := v;
     currentQuestionIndex := currentQuestionIndex s; score := score s;
     isFinished := isFinished s; isLoading := isLoading s;
     selectedAnswer := selectedAnswer s;
     isAuthenticated := isAuthenticated s; history := history s |}.

Definition set_currentQuestionIndex (v : Z) (s : QuizState) : QuizState :=
  {| topic := topic s; grade := grade s; questions := questions s;
     currentQuestionIndex := v; score := score s;
     isFinished := isFinished s; isLoading := isLoading s;
     selectedAnswer := selectedAnswer s;
     isAuthenticated := isAuthenticated s; history := history s |}.

Definition set_score (v : Z) (s : QuizState) : QuizState :=
  {| topic := topic s; grade := grade s; questions := questions s;
     currentQuestionIndex := currentQuestionIndex s; score := v;
     isFinished := isFinished s; isLoading := isLoading s;
     selectedAnswer := selectedAnswer s;
     isAuthenticated := isAuthenticated s; history := history s |}.

Definition set_isFinished (v : bool) (s : QuizState) : QuizState :=
  {| topic := topic s; grade := grade s; questions := questions s;
     currentQuestionIndex := currentQuestionIndex s; score := score s;
     isFinished := v; isLoading := isLoading s;
     selectedAnswer := selectedAnswer s;
     isAuthenticated := isAuthenticated s; history := history s |}.

Definition set_isLoading (v : bool) (s : QuizState) : QuizState :=
  {| topic := topic s; grade := grade s; questions := questions s;
     currentQuestionIndex := currentQuestionIndex s; score := score s;
     isFinished := isFinished s; isLoading := v;
     selectedAnswer := selectedAnswer s;
     isAuthenticated := isAuthenticated s; history := history s |}.

Definition set_selectedAnswer (v : option Z) (s : QuizState) : QuizState :=
  {| topic := topic s; grade := grade s; questions := questions s;
     currentQuestionIndex := currentQuestionIndex s; score := score s;
     isFinished := isFinished s; isLoading := isLoading s;
     selectedAnswer := v;
     isAuthenticated := isAuthenticated s; history := history s |}.

Definition set_isAuthenticated (v : bool) (s : QuizState) : QuizState :=
  {| topic := topic s; grade := grade s; questions := questions s;
     currentQuestionIndex := currentQuestionIndex s; score := score s;
     isFinished := isFinished s; isLoading := isLoading s;
     selectedAnswer := selectedAnswer s;
     isAuthenticated := v; history := history s |}.

Definition set_history (v : list QuizResult) (s : QuizState) : QuizState :=
  {| topic := topic s; grade := grade s; questions := questions s;
     currentQuestionIndex := currentQuestionIndex s; score := score s;
     isFinished := isFinished s; isLoading := isLoading s;
     selectedAnswer := selectedAnswer s;
     isAuthenticated := isAuthenticated s; history := v |}.

(* ================================================================== *)
(** ** JavaScript evaluation helpers *)
(* ================================================================== *)

(** Outcome of running a handler: it returns, or an exception escapes. *)
Inductive JsError : Type := TypeError.

Inductive Completion (A : Type) : Type :=
| Normal (a : A)
| Throw (e : JsError).
Arguments Normal {A} a.
Arguments Throw {A} e.

(** [arr[i]]: [undefined] (here [None]) outside [0 .. length-1]. *)
Definition jsIndex {A : Type} (arr : list A) (i : Z) : option A :=
  if i <? 0 then None else nth_error arr (Z.to_nat i).

(** [arr.length]. *)
Definition jsLength {A : Type} (arr : list A) : Z := Z.of_nat (List.length arr).

(** [a === n] for [a : number | null] and [n : number]. *)
Definition strictEq (a : option Z) (n : Z) : bool :=
  match a with
  | Some x => x =? n
  | None => false
  end.

(** [a || b] where every value of the left type but [null]/[undefined] is
    truthy (the grades ['11'] and ['12'] are non-empty strings). *)
Definition orElse {A : Type} (a : option A) (b : A) : A :=
  match a with Some x => x | None => b end.

(* ================================================================== *)
(** ** The handlers of [App] *)
(* ================================================================== *)

(** What [generateMCQs] hands to the generation service: the prompt is
    built from the captured [searchQuery] and the chosen grade only. *)
Record Request : Type := {
  request_topic : jsstring;
  request_grade : Grade
}.

(** How the [try] block of [generateMCQs] ends after the [await]: either
    [JSON.parse(response.text || '[]')] yields the question array, or
    something threw (the client constructor, the network call, the parser)
    and control reaches the [catch]. *)
Inductive GenerationOutcome : Type :=
| Resolved (questions : list MCQ)
| Rejected.

Definition failureMessage : jsstring :=
  str "Failed to generate questions. Please try again.".

(** [generateMCQs], lines 38-43, up to the [await]: [None] is the early
    [return] on a blank query; otherwise the state written by the first
    [setState] and the request sent. *)
Definition generateMCQs (searchQuery : jsstring) (selectedGrade : option Grade)
    (state prev : QuizState) : option (QuizState * Request) :=
  if negb (JsString.truthy (JsString.trim searchQuery)) then None
  else
    let grade := orElse selectedGrade (orElse (grade state) G11) in
    Some (set_grade (Some grade) (set_topic searchQuery (set_isLoading true prev)),
          {| request_topic := searchQuery; request_grade := grade |}).

(** [generateMCQs], lines 95-109, after the [await]: the new state and the
    messages passed to [alert]. *)
Definition generateMCQs_resume (outcome : GenerationOutcome) (prev : QuizState)
    : QuizState * list jsstring :=
  match outcome with
  | Resolved questions =>
      (set_selectedAnswer None
         (set_isFinished false
            (set_score 0
               (set_currentQuestionIndex 0
                  (set_isLoading false (set_questions questions prev))))),
       [])
  | Rejected =>
      (set_isLoading false prev, [failureMessage])
  end.

(** [handleAnswerSelect], lines 112-115. *)
Definition handleAnswerSelect (index : Z) (state prev : QuizState) : QuizState :=
  match selectedAnswer state with
  | Some _ => prev
  | None => set_selectedAnswer (Some index) prev
  end.

(** [nextQuestion], lines 117-145.  [now] is the reading of
    [new Date().toLocaleString()].  Reading [.correctAnswer] of
    [undefined] throws a [TypeError] before any [setState]. *)
Definition nextQuestion (now : jsstring) (state prev : QuizState)
    : Completion QuizState :=
  match jsIndex (questions state) (currentQuestionIndex state) with
  | None => Throw TypeError
  | Some q =>
      let isCorrect := strictEq (selectedAnswer state) (correctAnswer q) in
      let newScore := if isCorrect then score state + 1 else score state in
      if currentQuestionIndex state =? jsLength (questions state) - 1 then
        let newResult := {|
          result_topic := topic state;
          result_grade := grade state;
          result_score := newScore;
          totalQuestions := jsLength (questions state);
          date := now
        |} in
        Normal (set_history (newResult :: history prev)
                  (set_selectedAnswer None
                     (set_isFinished true (set_score newScore prev))))
      else
        Normal (set_selectedAnswer None
                  (set_currentQuestionIndex (currentQuestionIndex prev + 1)
                     (set_score newScore prev)))
  end.

(** [handleSignIn], line 148 (its [setCurrentView] is in [fire] below). *)
Definition handleSignIn (prev : QuizState) : QuizState :=
  set_isAuthenticated true prev.

(** [resetQuiz], line 153 (its [setSearchQuery] is in [fire] below). *)
Definition resetQuiz (prev : QuizState) : QuizState :=
  set_isAuthenticated (isAuthenticated prev)
    (set_history (history prev) INITIAL_STATE).

(** [currentMCQ], line 157, evaluated on every render. *)
Definition currentMCQ (state : QuizState) : option MCQ :=
  jsIndex (questions state) (currentQuestionIndex state).

(** *** The session operations

    React re-renders between two discrete events, so when a handler of
    the current render runs, the [state] of its closure is the value
    [setState] passes as [prev].  (A handler of an earlier render can
    still run where an [AnimatePresence] keeps its button on screen; see
    [ClickRetainedNext] below.) *)

Definition StartGeneration (topic : jsstring) (gradeLevel : option Grade)
    (s : QuizState) : option (QuizState * Request) :=
  generateMCQs topic gradeLevel s s.

Definition OnGenerationComplete (result : GenerationOutcome) (s : QuizState)
    : QuizState * list jsstring :=
  generateMCQs_resume result s.

Definition SelectAnswer (index : Z) (s : QuizState) : QuizState :=
  handleAnswerSelect index s s.

Definition Advance (now : jsstring) (s : QuizState) : Completion QuizState :=
  nextQuestion now s s.

Definition Reset (s : QuizState) : QuizState := resetQuiz s.

(** A call of one of the five operations, and its effect on the session;
    an operation that returns early or throws leaves the session as it is. *)
Inductive Operation : Type :=
| OpStartGeneration (topic : jsstring) (gradeLevel : option Grade)
| OpOnGenerationComplete (result : GenerationOutcome)
| OpSelectAnswer (index : Z)
| OpAdvance (now : jsstring)
| OpReset.

Definition applyOp (s : QuizState) (op : Operation) : QuizState :=
  match op with
  | OpStartGeneration q g =>
      match StartGeneration q g s with Some (s', _) => s' | None => s end
  | OpOnGenerationComplete r => fst (OnGenerationComplete r s)
  | OpSelectAnswer i => SelectAnswer i s
  | OpAdvance now =>
      match Advance now s with Normal s' => s' | Throw _ => s end
  | OpReset => Reset s
  end.

Definition applyAll (ops : list Operation) (s : QuizState) : QuizState :=
  fold_left applyOp ops s.

(** Answer each remaining question, then advance past it. *)
Fixpoint traverse (answers : list (Z * jsstring)) (s : QuizState)
    : Completion QuizState :=
  match answers with
  | [] => Normal s
  | (index, now) :: rest =>
      match Advance now (SelectAnswer index s) with
      | Normal s' => traverse rest s'
      | Throw e => Throw e
      end
  end.

(* ================================================================== *)
(** ** The application: state cells, rendered controls, events *)
(* ================================================================== *)

(** The three [useState] cells of [App], the generation requests whose
    promise has not settled yet, the messages shown by [alert], and what
    the two [AnimatePresence] wrappers still show of a child the render no
    longer returns:
    - [retainedNext]: the Next button of line 412 after the block of line
      396 has gone, with the [state] that the render which drew it gave
      to its [onClick];
    - [gateExiting]: the sign-in gate of line 206 fading out after
      sign-in. *)
Record App : Type := {
  state : QuizState;
  searchQuery : jsstring;
  currentView : View;
  inFlight : list Request;
  alerts : list jsstring;
  retainedNext : option QuizState;
  gateExiting : bool
}.

Definition initialApp : App := {|
  state := INITIAL_STATE;
  searchQuery := [];
  currentView := home;
  inFlight := [];
  alerts := [];
  retainedNext := None;
  gateExiting := false
|}.

Definition tags : list jsstring :=
  [str "Photosynthesis"; str "Newton's Laws"; str "Periodic Table";
   str "Integration"; str "Cell Division"].

Definition subjectNames : list jsstring :=
  [str "Physics"; str "Chemistry"; str "Biology"; str "Mathematics"].

Definition gradeText (g : Grade) : jsstring :=
  match g with G11 => str "11" | G12 => str "12" end.

(** The template literal [`${subject} Class 11`] (or [12]). *)
Definition practiceQuery (subject : jsstring) (g : Grade) : jsstring :=
  subject ++ str " Class " ++ gradeText g.

(** *** Render conditions *)

(** Lines 204-205: everything under [<main>] but the sign-in gate.  The
    wrapper is in mode ["wait"], so the content of a signed-in user only
    comes up once the gate has finished fading out. *)
Definition contentRendered (a : App) (v : View) : bool :=
  isAuthenticated (state a) && negb (gateExiting a)
  && View_eqb (currentView a) v.

(** Line 248: the search box, the Generate button and the topic tags. *)
Definition heroRendered (a : App) : bool :=
  contentRendered a home
  && (jsLength (questions (state a)) =? 0)
  && negb (isLoading (state a)).

(** Line 326: the question card with its option buttons. *)
Definition questionCardRendered (a : App) : bool :=
  contentRendered a home
  && (0 <? jsLength (questions (state a)))
  && negb (isFinished (state a)).

(** Lines 356-365: one enabled button per option of [currentMCQ];
    [disabled={showResult}] switches them off once an answer is chosen. *)
Definition optionButtonEnabled (a : App) (idx : Z) : bool :=
  questionCardRendered a
  && match currentMCQ (state a) with
     | Some q => (0 <=? idx) && (idx <? jsLength (options q))
     | None => false
     end
  && match selectedAnswer (state a) with Some _ => false | None => true end.

(** Lines 396-412: the Next / Finish button as the current render
    returns it. *)
Definition nextButtonRendered (a : App) : bool :=
  questionCardRendered a
  && match selectedAnswer (state a) with Some _ => true | None => false end.

(** Line 395: the Next button that [AnimatePresence] still shows although
    the current render returns none. *)
Definition retainedNextShown (a : App) : bool :=
  questionCardRendered a
  && negb (nextButtonRendered a)
  && match retainedNext a with Some _ => true | None => false end.

(** Line 425: the result screen with "Try Another Topic". *)
Definition resultRendered (a : App) : bool :=
  contentRendered a home && isFinished (state a).

(** The card reads [currentMCQ.question]: rendering it with
    [currentMCQ] undefined throws.  What React does after that is not
    modelled; the events below stay defined. *)
Definition renderThrows (a : App) : bool :=
  questionCardRendered a
  && match currentMCQ (state a) with Some _ => false | None => true end.

(** *** Events *)

Inductive Event : Type :=
| ClickLogo                                   (* line 166 *)
| ClickNav (v : View)                         (* header and footer links *)
| ClickBack                                   (* privacy, terms: back to home *)
| ClickSignIn                                 (* lines 225, 236 *)
| ChangeQuery (text : jsstring)               (* line 280 *)
| SubmitQuery                                 (* lines 281, 285 *)
| ClickTag (tag : jsstring)                   (* line 298 *)
| ClickOption (idx : Z)                       (* line 364 *)
| ClickNext (now : jsstring)                  (* line 412, as rendered *)
| ClickRetainedNext (now : jsstring)          (* line 412, kept by line 395 *)
| ClickTryAnother                             (* line 456 *)
| ClickStartPractice (subject : jsstring) (g : Grade)   (* lines 556, 579 *)
| Settle (k : nat) (outcome : GenerationOutcome)        (* a promise settles *)
| NextExitComplete                            (* line 395 drops its child *)
| GateExitComplete.                           (* line 204 drops the gate *)

(** Whether the control of an event is on screen (for [Settle]: whether
    the [k]-th pending request exists; for the two exit events: whether
    something is fading out). *)
Definition enabled (a : App) (e : Event) : bool :=
  match e with
  | ClickLogo => true
  | ClickNav v => negb (View_eqb v home)
  | ClickBack => contentRendered a privacy || contentRendered a terms
  | ClickSignIn => negb (isAuthenticated (state a)) || gateExiting a
  | ChangeQuery _ => heroRendered a
  | SubmitQuery => heroRendered a
  | ClickTag tag => heroRendered a && existsb (JsString.eqb tag) tags
  | ClickOption idx => optionButtonEnabled a idx
  | ClickNext _ => nextButtonRendered a
  | ClickRetainedNext _ => retainedNextShown a
  | ClickTryAnother => resultRendered a
  | ClickStartPractice subject _ =>
      contentRendered a subjects && existsb (JsString.eqb subject) subjectNames
  | Settle k _ => (k <? List.length (inFlight a))%nat
  | NextExitComplete =>
      match retainedNext a with Some _ => true | None => false end
  | GateExitComplete => gateExiting a
  end.

Definition with_state (s : QuizState) (a : App) : App :=
  {| state := s; searchQuery := searchQuery a; currentView := currentView a;
     inFlight := inFlight a; alerts := alerts a;
     retainedNext := retainedNext a; gateExiting := gateExiting a |}.

Definition with_searchQuery (q : jsstring) (a : App) : App :=
  {| state := state a; searchQuery := q; currentView := currentView a;
     inFlight := inFlight a; alerts := alerts a;
     retainedNext := retainedNext a; gateExiting := gateExiting a |}.

Definition with_currentView (v : View) (a : App) : App :=
  {| state := state a; searchQuery := searchQuery a; currentView := v;
     inFlight := inFlight a; alerts := alerts a;
     retainedNext := retainedNext a; gateExiting := gateExiting a |}.

(** What the two [AnimatePresence] wrappers show after a re-render that
    leads from [before] to [after].
    - Line 395: while the card is mounted and the render returns no Next
      block, the wrapper keeps the block it had; if the previous render
      still returned one, that is the block now kept, with the handlers
      of that render.  A returned block, or an unmounted card, leaves
      nothing kept.
    - Line 204: the gate starts fading when the user becomes signed in. *)
Definition rerender (before after : App) : App :=
  {| state := state after;
     searchQuery := searchQuery after;
     currentView := currentView after;
     inFlight := inFlight after;
     alerts := alerts after;
     retainedNext :=
       if questionCardRendered after && negb (nextButtonRendered after)
       then if nextButtonRendered before
            then Some (state before) else retainedNext before
       else None;
     gateExiting :=
       if isAuthenticated (state after)
       then if isAuthenticated (state before)
            then gateExiting before else true
       else false |}.

(** A call [generateMCQs(selectedGrade)] made by a control of the current
    render: it sees the [searchQuery] and [state] of that render. *)
Definition callGenerateMCQs (selectedGrade : option Grade) (a : App) : App :=
  match generateMCQs (searchQuery a) selectedGrade (state a) (state a) with
  | None => a
  | Some (s', request) =>
      {| state := s'; searchQuery := searchQuery a;
         currentView := currentView a;
         inFlight := inFlight a ++ [request]; alerts := alerts a;
         retainedNext := retainedNext a; gateExiting := gateExiting a |}
  end.

Fixpoint removeNth {A : Type} (k : nat) (l : list A) : list A :=
  match l, k with
  | [], _ => []
  | _ :: rest, O => rest
  | x :: rest, S k' => x :: removeNth k' rest
  end.

(** The effect of an event whose control is on screen.  Where a click
    handler calls a setter and then [generateMCQs], the latter still runs
    with the query of the render that created it.  A handler that returns
    early or throws sets no state, so nothing is rendered again.  A click
    on the kept Next button runs [nextQuestion] with the [state] of the
    render that drew the button, on the current [prev]. *)
Definition fire (a : App) (e : Event) : App :=
  match e with
  | ClickLogo =>
      rerender a
        (with_currentView subjects
           (with_searchQuery [] (with_state (resetQuiz (state a)) a)))
  | ClickNav v => rerender a (with_currentView v a)
  | ClickBack => rerender a (with_currentView home a)
  | ClickSignIn =>
      rerender a
        (with_currentView subjects (with_state (handleSignIn (state a)) a))
  | ChangeQuery text => rerender a (with_searchQuery text a)
  | SubmitQuery =>
      match generateMCQs (searchQuery a) None (state a) (state a) with
      | None => a
      | Some _ => rerender a (callGenerateMCQs None a)
      end
  | ClickTag tag => rerender a (with_searchQuery tag (callGenerateMCQs None a))
  | ClickOption idx =>
      rerender a (with_state (handleAnswerSelect idx (state a) (state a)) a)
  | ClickNext now =>
      match nextQuestion now (state a) (state a) with
      | Normal s' => rerender a (with_state s' a)
      | Throw _ => a
      end
  | ClickRetainedNext now =>
      match retainedNext a with
      | Some captured =>
          match nextQuestion now captured (state a) with
          | Normal s' => rerender a (with_state s' a)
          | Throw _ => a
          end
      | None => a
      end
  | ClickTryAnother =>
      rerender a (with_searchQuery [] (with_state (resetQuiz (state a)) a))
  | ClickStartPractice subject g =>
      rerender a
        (with_currentView home
           (with_searchQuery (practiceQuery subject g)
              (callGenerateMCQs (Some g) a)))
  | Settle k outcome =>
      let (s', shown) := generateMCQs_resume outcome (state a) in
      rerender a
        {| state := s'; searchQuery := searchQuery a;
           currentView := currentView a;
           inFlight := removeNth k (inFlight a);
           alerts := alerts a ++ shown;
           retainedNext := retainedNext a; gateExiting := gateExiting a |}
  | NextExitComplete =>
      {| state := state a; searchQuery := searchQuery a;
         currentView := currentView a; inFlight := inFlight a;
         alerts := alerts a; retainedNext := None;
         gateExiting := gateExiting a |}
  | GateExitComplete =>
      {| state := state a; searchQuery := searchQuery a;
         currentView := currentView a; inFlight := inFlight a;
         alerts := alerts a; retainedNext := retainedNext a;
         gateExiting := false |}
  end.

Definition step (a : App) (e : Event) : App :=
  if enabled a e then fire a e else a.

Definition run (events : list Event) (a : App) : App :=
  fold_left step events a.

Inductive reachable : App -> Prop :=
| reachable_init : reachable initialApp
| reachable_step : forall a e, reachable a -> reachable (step a e).

(* ================================================================== *)
(** ** Sample data *)
(* ================================================================== *)

Definition mcq (correct : Z) : MCQ := {|
  question := str "Q";
  options := [str "A"; str "B"; str "C"; str "D"];
  correctAnswer := correct;
  explanation := str "E"
|}.

Definition clock : jsstring := str "1/1/2026, 9:00:00 AM".

(** A session on its first of two questions, option 0 chosen. *)
Definition twoQuestionSession : QuizState :=
  set_selectedAnswer (Some 0)
    (set_grade (Some G11)
       (set_topic (str "Optics")
          (set_questions [mcq 0; mcq 1] INITIAL_STATE))).

(* ================================================================== *)
(** ** Invariants, as predicates on the session *)
(* ================================================================== *)

(** The index stays inside the question list whenever there is one. *)
Definition indexInRange (s : QuizState) : Prop :=
  0 <= currentQuestionIndex s
  /\ (questions s = [] \/ currentQuestionIndex s < jsLength (questions s)).

(** At most one point per question passed. *)
Definition scoreBounded (s : QuizState) : Prop :=
  score s <= currentQuestionIndex s + (if isFinished s then 1 else 0).

(** An answer is only ever selected on a question that is on screen. *)
Definition selectionOnOpenQuestion (s : QuizState) : Prop :=
  selectedAnswer s <> None ->
  isFinished s = false /\ 0 <= currentQuestionIndex s < jsLength (questions s).

Definition sessionInvariant (s : QuizState) : Prop :=
  indexInRange s /\ scoreBounded s /\ selectionOnOpenQuestion s.

(* ================================================================== *)
(** ** Event and operation sequences used below *)
(* ================================================================== *)

(** [run] that also checks that every event finds its control. *)
Definition runChecked (events : list Event) (a : App) : option App :=
  fold_left
    (fun acc e =>
       match acc with
       | Some a' => if enabled a' e then Some (fire a' e) else None
       | None => None
       end)
    events (Some a).

(** Sign in and let the gate fade out, pick a subject card (the query was
    still blank when the card was rendered, so only the search box is
    filled), press Generate, and while the request is pending go back to
    Subjects. *)
Definition loadingOnSubjects : list Event :=
  [ClickSignIn; GateExitComplete; ClickStartPractice (str "Physics") G11;
   SubmitQuery; ClickNav subjects].

Definition secondStart : Event := ClickStartPractice (str "Chemistry") G12.

(** A one-question session answered correctly, then answered and advanced
    once more after it has finished. *)
Definition rescoreFinished : list Operation :=
  [OpOnGenerationComplete (Resolved [mcq 0]);
   OpSelectAnswer 0; OpAdvance clock;
   OpSelectAnswer 0; OpAdvance clock].

(** A generation that delivers no question, then an answer. *)
Definition answerEmptyQuiz : list Operation :=
  [OpOnGenerationComplete (Resolved []); OpSelectAnswer 0].

(** Sign in, fill the query through a subject card, press Generate. *)
Definition oneRequestPending : list Event :=
  [ClickSignIn; GateExitComplete; ClickStartPractice (str "Physics") G11;
   SubmitQuery].

(** The same, then two questions arrive and the first is answered. *)
Definition firstQuestionAnswered : list Event :=
  oneRequestPending
  ++ [Settle 0 (Resolved [mcq 0; mcq 1]); ClickOption 0].

(* ================================================================== *)
(** ** Values the view derives from the state *)
(* ================================================================== *)

(** Line 308: the spinner shown while a request is pending. *)
Definition spinnerRendered (a : App) : bool :=
  contentRendered a home && isLoading (state a).

(** Line 415: the caption of the button that calls [nextQuestion]. *)
Inductive NextCaption : Type := FinishQuiz | NextQuestion.

Definition nextButtonCaption (s : QuizState) : NextCaption :=
  if currentQuestionIndex s =? jsLength (questions s) - 1
  then FinishQuiz else NextQuestion.

(** Line 335: "Question [currentQuestionIndex + 1] of [questions.length]". *)
Definition progressLabel (s : QuizState) : Z * Z :=
  (currentQuestionIndex s + 1, jsLength (questions s)).

(** [arr.slice(0, n)] for a literal [n >= 0]. *)
Definition slice0 {A : Type} (n : nat) (arr : list A) : list A := firstn n arr.




(** Line 514: the rows of "Recent Quizzes". *)
Definition recentQuizzes (s : QuizState) : list QuizResult :=
  slice0 5 (history s).

(* ================================================================== *)
(** ** Further invariants of the running application *)
(* ================================================================== *)

(** A ledger entry counts between zero and all of at least one question. *)
Definition resultWellFormed (r : QuizResult) : Prop :=
  0 <= result_score r <= totalQuestions r /\ 1 <= totalQuestions r.

(** The part of it that survives a click on a kept Next button. *)
Definition resultSane (r : QuizResult) : Prop :=
  0 <= result_score r /\ 1 <= totalQuestions r.

(** Before sign-in nothing has happened yet. *)
Definition signedOutPristine (a : App) : Prop :=
  isAuthenticated (state a) = false ->
  state a = INITIAL_STATE /\ searchQuery a = [] /\ inFlight a = []
  /\ alerts a = [] /\ retainedNext a = None /\ gateExiting a = false.

(** The spinner is only shown while some request is still pending. *)
Definition loadingHasRequest (a : App) : Prop :=
  isLoading (state a) = true -> inFlight a <> [].

(** A finished session stands on its last question, and the newest ledger
    entry carries its score and its number of questions. *)
Definition finishedShape (s : QuizState) : Prop :=
  isFinished s = true ->
  currentQuestionIndex s = jsLength (questions s) - 1
  /\ exists r rest,
       history s = r :: rest
       /\ result_score r = score s
       /\ totalQuestions r = jsLength (questions s).

(** The selected answer is the index of an option of the current question. *)
Definition selectionIsAnOption (s : QuizState) : Prop :=
  forall i, selectedAnswer s = Some i ->
  exists q, currentMCQ s = Some q /\ 0 <= i < jsLength (options q).

(** What holds of a session reached without a click on a kept Next
    button, beside [sessionInvariant]. *)
Definition sessionFacts (s : QuizState) : Prop :=
  0 <= score s /\ finishedShape s /\ selectionIsAnOption s
  /\ Forall resultWellFormed (history s).

(** A finished session shows the score of the newest ledger entry. *)
Definition finishedFacts (s : QuizState) : Prop :=
  isFinished s = true ->
  questions s <> []
  /\ exists r rest, history s = r :: rest /\ result_score r = score s.

(** The state a kept Next button carries is one in which an answer was
    selected on an existing question. *)
Definition retainedFacts (a : App) : Prop :=
  forall captured, retainedNext a = Some captured ->
  0 <= score captured
  /\ exists i q,
       selectedAnswer captured = Some i /\ currentMCQ captured = Some q.

(** The part of the invariant that only concerns the session record. *)
Definition coreFacts (s : QuizState) : Prop :=
  0 <= score s
  /\ 0 <= currentQuestionIndex s
  /\ selectionOnOpenQuestion s
  /\ selectionIsAnOption s
  /\ finishedFacts s
  /\ Forall resultSane (history s).

Definition appInvariant (a : App) : Prop :=
  coreFacts (state a)
  /\ signedOutPristine a
  /\ loadingHasRequest a
  /\ retainedFacts a.

(** Whether no event of a sequence is a click on a kept Next button. *)
Definition isFreshEvent (e : Event) : bool :=
  match e with ClickRetainedNext _ => false | _ => true end.

Definition freshClicksOnly (events : list Event) : bool :=
  forallb isFreshEvent events.

(** Start a generation, reset with the header logo while it is pending,
    let the answer arrive, return to the home view through the privacy
    page, answer the only question and finish. *)
Definition resetWhilePending : list Event :=
  oneRequestPending
  ++ [ClickLogo; Settle 0 (Resolved [mcq 0]); ClickNav privacy; ClickBack;
      ClickOption 0; ClickNext clock].

(** Answer the first of two questions, click Next, and click the Next
    button once more while line 395 still shows it. *)
Definition doubleClickOnNext : list Event :=
  firstQuestionAnswered ++ [ClickNext clock; ClickRetainedNext clock].

(** Go on to the second question, start another generation from a
    subject card, answer the second question while that request is
    pending, let its three questions arrive, and click the Finish button
    that line 395 still shows. *)
Definition staleFinishOnNewQuiz : list Event :=
  firstQuestionAnswered
  ++ [ClickNext clock; ClickNav subjects;
      ClickStartPractice (str "Chemistry") G12; ClickOption 1;
      Settle 0 (Resolved [mcq 0; mcq 0; mcq 0]); ClickRetainedNext clock].

(** On the second of three questions with one point, answer correctly
    while another request is pending; its two questions arrive; the kept
    Next button writes the old score onto the new quiz, whose last
    question is then answered and finished. *)
Definition staleScoreThenFinish : list Event :=
  oneRequestPending
  ++ [Settle 0 (Resolved [mcq 0; mcq 0; mcq 0]); ClickOption 0;
      ClickNext clock; ClickNav subjects;
      ClickStartPractice (str "Chemistry") G12; ClickOption 0;
      Settle 0 (Resolved [mcq 0; mcq 0]); ClickRetainedNext clock;
      ClickOption 0; ClickNext clock].

(* ================================================================== *)

(* ================================================================== *)
(** ** Basic facts *)
(* ================================================================== *)

Lemma jsIndex_Some_iff : forall (A : Type) (arr : list A) (i : Z),
  (exists x, jsIndex arr i = Some x) <-> 0 <= i < jsLength arr.
Proof.
  intros A arr i. unfold jsIndex, jsLength.
  destruct (Z.ltb_spec i 0) as [Hneg | Hpos].
  - split; [intros [x Hx]; discriminate | lia].
  - split.
    + intros [x Hx].
      assert (Hlt : (Z.to_nat i < List.length arr)%nat)
        by (apply nth_error_Some; congruence).
      lia.
    + intros [_ Hlt].
      destruct (nth_error arr (Z.to_nat i)) eqn:Hnth; [eauto |].
      apply nth_error_None in Hnth. lia.
Qed.

Lemma jsIndex_None_iff : forall (A : Type) (arr : list A) (i : Z),
  jsIndex arr i = None <-> ~ (0 <= i < jsLength arr).
Proof.
  intros A arr i. rewrite <- jsIndex_Some_iff. split.
  - intros Hnone [x Hx]. congruence.
  - intros Hno. destruct (jsIndex arr i) eqn:E; [exfalso; eauto | reflexivity].
Qed.

(** [nextQuestion] where the current question exists. *)
Lemma nextQuestion_defined : forall now state prev q,
  currentMCQ state = Some q ->
  nextQuestion now state prev =
    let newScore :=
      if strictEq (selectedAnswer state) (correctAnswer q)
      then score state + 1 else score state in
    if currentQuestionIndex state =? jsLength (questions state) - 1 then
      Normal (set_history
                ({| result_topic := topic state; result_grade := grade state;
                    result_score := newScore;
                    totalQuestions := jsLength (questions state);
                    date := now |} :: history prev)
                (set_selectedAnswer None
                   (set_isFinished true (set_score newScore prev))))
    else
      Normal (set_selectedAnswer None
                (set_currentQuestionIndex (currentQuestionIndex prev + 1)
                   (set_score newScore prev))).
Proof.
  intros now state prev q Hq. unfold nextQuestion, currentMCQ in *.
  rewrite Hq. reflexivity.
Qed.

Lemma nextQuestion_undefined : forall now state prev,
  currentMCQ state = None -> nextQuestion now state prev = Throw TypeError.
Proof.
  intros now state prev Hq. unfold nextQuestion, currentMCQ in *.
  rewrite Hq. reflexivity.
Qed.

(** A call of [generateMCQs] touches only [isLoading], [topic] and [grade]. *)
Lemma callGenerateMCQs_core : forall g a,
  questions (state (callGenerateMCQs g a)) = questions (state a)
  /\ currentQuestionIndex (state (callGenerateMCQs g a)) = currentQuestionIndex (state a)
  /\ score (state (callGenerateMCQs g a)) = score (state a)
  /\ isFinished (state (callGenerateMCQs g a)) = isFinished (state a)
  /\ selectedAnswer (state (callGenerateMCQs g a)) = selectedAnswer (state a)
  /\ history (state (callGenerateMCQs g a)) = history (state a).
Proof.
  intros g a. unfold callGenerateMCQs, generateMCQs.
  destruct (negb _); simpl; repeat split; reflexivity.
Qed.

(* ================================================================== *)
(** ** Advance: scoring, moving on, finishing *)
(* ================================================================== *)

(** C1. In a session with an answer selected for the current question,
    [Advance] adds exactly one point if and only if the selected option is
    the question's [correctAnswer] (and no point otherwise).  On the last
    index it puts one result (topic, grade, score after the increment,
    number of questions) in front of the ledger, sets [isFinished] and
    clears the selection, leaving the index; on any other index it moves
    to the next question and clears the selection, leaving the ledger and
    [isFinished].  No other field changes. *)
Theorem Advance_scores_then_moves_or_finishes :
  forall (now : jsstring) (s : QuizState) (a : Z) (q : MCQ),
    selectedAnswer s = Some a ->
    currentMCQ s = Some q ->
    exists s',
      Advance now s = Normal s'
      /\ (score s' = score s + 1 <-> a = correctAnswer q)
      /\ (score s' = score s <-> a <> correctAnswer q)
      /\ (currentQuestionIndex s = jsLength (questions s) - 1 ->
            history s' =
              {| result_topic := topic s; result_grade := grade s;
                 result_score := score s';
                 totalQuestions := jsLength (questions s);
                 date := now |} :: history s
            /\ isFinished s' = true
            /\ selectedAnswer s' = None
            /\ currentQuestionIndex s' = currentQuestionIndex s)
      /\ (currentQuestionIndex s <> jsLength (questions s) - 1 ->
            currentQuestionIndex s' = currentQuestionIndex s + 1
            /\ selectedAnswer s' = None
            /\ history s' = history s
            /\ isFinished s' = isFinished s)
      /\ topic s' = topic s /\ grade s' = grade s
      /\ questions s' = questions s /\ isLoading s' = isLoading s
      /\ isAuthenticated s' = isAuthenticated s.
Proof.
  intros now s a q Hsel Hq. unfold Advance.
  rewrite (nextQuestion_defined now s s q Hq). rewrite Hsel. cbn zeta.
  unfold strictEq.
  destruct (Z.eqb_spec a (correctAnswer q)) as [Heq | Hne];
    destruct (Z.eqb_spec (currentQuestionIndex s) (jsLength (questions s) - 1))
      as [Hlast | Hmid];
    eexists; (split; [reflexivity |]); simpl;
    repeat split; intros; try reflexivity; try lia; try congruence.
Qed.

Lemma Advance_scores_then_moves_or_finishes_witness :
  exists s',
    Advance clock twoQuestionSession = Normal s'
    /\ score s' = 1 /\ currentQuestionIndex s' = 1
    /\ selectedAnswer s' = None /\ history s' = [].
Proof.
  destruct (Advance_scores_then_moves_or_finishes clock twoQuestionSession 0
              (mcq 0) eq_refl eq_refl)
    as (s' & Hrun & Hpoint & _ & _ & Hmid & _).
  exists s'. split; [exact Hrun |].
  destruct Hmid as (Hidx & Hsel & Hhist & _); [vm_compute; discriminate |].
  repeat split; try assumption.
  apply Hpoint. reflexivity.
Defined.

(** The three-question scenario: correct options 0, 1, 2 and the learner
    choosing 0, 2, 2 answers the first and the third question correctly. *)
Lemma scenario_three_questions :
  exists s',
    traverse [(0, clock); (2, clock); (2, clock)]
      (fst (OnGenerationComplete (Resolved [mcq 0; mcq 1; mcq 2])
              (set_topic (str "Optics") INITIAL_STATE))) = Normal s'
    /\ score s' = 2
    /\ isFinished s' = true
    /\ history s' =
         [{| result_topic := str "Optics"; result_grade := None;
             result_score := 2; totalQuestions := 3; date := clock |}].
Proof. eexists. split; [vm_compute; reflexivity |]. repeat split. Qed.

(* ================================================================== *)
(** ** The history ledger *)
(* ================================================================== *)

Lemma SelectAnswer_fresh : forall index s,
  selectedAnswer s = None -> SelectAnswer index s = set_selectedAnswer (Some index) s.
Proof.
  intros index s Hsel. unfold SelectAnswer, handleAnswerSelect.
  rewrite Hsel. reflexivity.
Qed.

(** Answering and advancing through the questions that remain, starting
    anywhere inside the list, finishes the session with one new entry. *)
Lemma traverse_remaining : forall answers s,
  selectedAnswer s = None ->
  0 <= currentQuestionIndex s ->
  currentQuestionIndex s + Z.of_nat (List.length answers) = jsLength (questions s) ->
  (1 <= List.length answers)%nat ->
  exists s',
    traverse answers s = Normal s'
    /\ isFinished s' = true
    /\ List.length (history s') = S (List.length (history s))
    /\ tl (history s') = history s
    /\ questions s' = questions s.
Proof.
  induction answers as [| [index now] rest IH]; intros s Hsel Hidx Hlen Hpos.
  - simpl in Hpos. lia.
  - cbn [traverse]. rewrite (SelectAnswer_fresh index s Hsel).
    assert (Hin : 0 <= currentQuestionIndex s < jsLength (questions s))
      by (cbn [List.length] in Hlen; lia).
    apply jsIndex_Some_iff in Hin. destruct Hin as [q Hq].
    unfold Advance.
    rewrite (nextQuestion_defined now _ _ q) by exact Hq.
    cbn zeta. cbn [set_selectedAnswer currentQuestionIndex questions].
    destruct (Z.eqb_spec (currentQuestionIndex s) (jsLength (questions s) - 1))
      as [Hlast | Hmid].
    + assert (Hrest : rest = [])
        by (destruct rest; [reflexivity | cbn [List.length] in Hlen; lia]).
      subst rest. cbn [traverse]. eexists. split; [reflexivity |].
      simpl. repeat split; reflexivity.
    + match goal with
      | |- exists s', traverse rest ?mid = _ /\ _ =>
          destruct (IH mid) as (s' & Hrun & Hfin & Hlen' & Htl & Hqs)
      end.
      * reflexivity.
      * simpl. lia.
      * simpl. cbn [List.length] in Hlen. lia.
      * cbn [List.length] in Hlen. lia.
      * exists s'. split; [exact Hrun |]. simpl in Hlen', Htl, Hqs.
        repeat split; assumption.
Qed.

Lemma applyOp_history : forall s op,
  history (applyOp s op) = history s
  \/ exists now r,
       op = OpAdvance now
       /\ currentQuestionIndex s = jsLength (questions s) - 1
       /\ history (applyOp s op) = r :: history s.
Proof.
  intros s [q g | [qs |] | index | now |]; cbn [applyOp].
  - left. unfold StartGeneration, generateMCQs.
    destruct (negb _); reflexivity.
  - left. reflexivity.
  - left. reflexivity.
  - left. unfold SelectAnswer, handleAnswerSelect.
    destruct (selectedAnswer s); reflexivity.
  - unfold Advance, nextQuestion.
    destruct (jsIndex (questions s) (currentQuestionIndex s)) as [q |];
      [| left; reflexivity].
    destruct (Z.eqb_spec (currentQuestionIndex s) (jsLength (questions s) - 1))
      as [Hlast | Hmid].
    + right. eexists now, _.
      split; [reflexivity | split; [exact Hlast | reflexivity]].
    + left. reflexivity.
  - left. reflexivity.
Qed.

Lemma nextQuestion_history : forall now state prev s',
  nextQuestion now state prev = Normal s' ->
  history s' = history prev
  \/ (currentQuestionIndex state = jsLength (questions state) - 1
      /\ exists r, history s' = r :: history prev).
Proof.
  intros now state0 prev s' Hrun. unfold nextQuestion in Hrun.
  destruct (jsIndex _ _); [| discriminate]. cbn zeta in Hrun.
  destruct (Z.eqb_spec (currentQuestionIndex state0)
              (jsLength (questions state0) - 1)) as [Hlast | Hmid];
    injection Hrun as <-.
  - right. split; [exact Hlast |]. eexists. reflexivity.
  - left. reflexivity.
Qed.

Lemma SubmitQuery_fire : forall a,
  fire a SubmitQuery = callGenerateMCQs None a
  \/ fire a SubmitQuery = rerender a (callGenerateMCQs None a).
Proof.
  intros a. cbn [fire]. unfold callGenerateMCQs.
  destruct (generateMCQs (searchQuery a) None (state a) (state a))
    as [[s' r] |]; [right | left]; reflexivity.
Qed.

Lemma step_history : forall a e,
  history (state (step a e)) = history (state a)
  \/ (exists now r,
        e = ClickNext now
        /\ currentQuestionIndex (state a) = jsLength (questions (state a)) - 1
        /\ history (state (step a e)) = r :: history (state a))
  \/ (exists now r captured,
        e = ClickRetainedNext now
        /\ retainedNext a = Some captured
        /\ currentQuestionIndex captured = jsLength (questions captured) - 1
        /\ history (state (step a e)) = r :: history (state a)).
Proof.
  intros a e. unfold step. destruct (enabled a e); [| left; reflexivity].
  destruct e as [| v | | | text | | tag | idx | now | now | | subject g
                 | k outcome | |];
    try (left; reflexivity).
  - left. destruct (SubmitQuery_fire a) as [-> | ->];
      apply (callGenerateMCQs_core None a).
  - left. apply (callGenerateMCQs_core None a).
  - left. cbn. unfold handleAnswerSelect.
    destruct (selectedAnswer (state a)); reflexivity.
  - cbn [fire].
    destruct (nextQuestion now (state a) (state a)) as [s' | err] eqn:Hrun;
      [| left; reflexivity].
    destruct (nextQuestion_history _ _ _ _ Hrun) as [Hsame | (Hlast & r & Hr)].
    + left. exact Hsame.
    + right. left. exists now, r. repeat split; assumption.
  - cbn [fire]. destruct (retainedNext a) as [captured |];
      [| left; reflexivity].
    destruct (nextQuestion now captured (state a)) as [s' | err] eqn:Hrun;
      [| left; reflexivity].
    destruct (nextQuestion_history _ _ _ _ Hrun) as [Hsame | (Hlast & r & Hr)].
    + left. exact Hsame.
    + right. right. exists now, r, captured. repeat split; assumption.
  - left. apply (callGenerateMCQs_core (Some g) a).
  - left. cbn [fire]. destruct outcome; reflexivity.
Qed.

(** C2. Whatever the session was before, once a generation delivers
    N >= 1 questions, answering and advancing through all N of them ends
    normally in a finished session whose ledger is the old ledger with
    exactly one entry in front.  Among the five operations only [Advance]
    on the last index changes the ledger, and it adds one entry; the same
    holds for every event of the application, where only a click on a
    Next button whose handler stands on its last index does: the rendered
    button with the current state, or the button kept by line 395 with
    the state it carries. *)
Theorem ledger_grows_by_one_per_traversal :
  (forall (s0 : QuizState) (qs : list MCQ) (answers : list (Z * jsstring)),
      (1 <= List.length qs)%nat ->
      List.length answers = List.length qs ->
      exists s',
        traverse answers (fst (OnGenerationComplete (Resolved qs) s0)) = Normal s'
        /\ isFinished s' = true
        /\ List.length (history s') = S (List.length (history s0))
        /\ tl (history s') = history s0)
  /\ (forall (s : QuizState) (op : Operation),
        history (applyOp s op) = history s
        \/ exists now r,
             op = OpAdvance now
             /\ currentQuestionIndex s = jsLength (questions s) - 1
             /\ history (applyOp s op) = r :: history s)
  /\ (forall (a : App) (e : Event),
        history (state (step a e)) = history (state a)
        \/ (exists now r,
              e = ClickNext now
              /\ currentQuestionIndex (state a)
                 = jsLength (questions (state a)) - 1
              /\ history (state (step a e)) = r :: history (state a))
        \/ (exists now r captured,
              e = ClickRetainedNext now
              /\ retainedNext a = Some captured
              /\ currentQuestionIndex captured
                 = jsLength (questions captured) - 1
              /\ history (state (step a e)) = r :: history (state a))).
Proof.
  split; [| split; [exact applyOp_history | exact step_history]].
  intros s0 qs answers Hn Hlen.
  destruct (traverse_remaining answers
              (fst (OnGenerationComplete (Resolved qs) s0)))
    as (s' & Hrun & Hfin & Hlen' & Htl & _).
  - reflexivity.
  - simpl. lia.
  - simpl. unfold jsLength. lia.
  - lia.
  - exists s'. simpl in Hlen', Htl. repeat split; assumption.
Qed.

Lemma ledger_grows_by_one_per_traversal_witness :
  exists s',
    traverse [(0, clock); (0, clock)]
      (fst (OnGenerationComplete (Resolved [mcq 0; mcq 1]) twoQuestionSession))
      = Normal s'
    /\ isFinished s' = true
    /\ List.length (history s') = 1%nat
    /\ tl (history s') = [].
Proof.
  destruct ledger_grows_by_one_per_traversal as (Htraversal & _ & _).
  apply (Htraversal twoQuestionSession [mcq 0; mcq 1] [(0, clock); (0, clock)]).
  - simpl. lia.
  - reflexivity.
Defined.

(* ================================================================== *)
(* ================================================================== *)
(** ** Invariants of the running application *)
(* ================================================================== *)

Lemma questionCardRendered_inv : forall a,
  questionCardRendered a = true ->
  isAuthenticated (state a) = true /\ currentView a = home
  /\ 0 < jsLength (questions (state a)) /\ isFinished (state a) = false
  /\ gateExiting a = false.
Proof.
  intros a H. unfold questionCardRendered, contentRendered in H.
  repeat (apply andb_prop in H; destruct H as [H ?]).
  repeat split; try assumption.
  - destruct (currentView a); simpl in *; congruence.
  - now apply Z.ltb_lt.
  - now apply negb_true_iff.
  - now apply negb_true_iff.
Qed.

Lemma optionButtonEnabled_inv : forall a idx,
  optionButtonEnabled a idx = true ->
  questionCardRendered a = true
  /\ selectedAnswer (state a) = None
  /\ exists q, currentMCQ (state a) = Some q /\ 0 <= idx < jsLength (options q).
Proof.
  intros a idx Hen. unfold optionButtonEnabled in Hen.
  apply andb_prop in Hen. destruct Hen as [Hen Hsel].
  apply andb_prop in Hen. destruct Hen as [Hcard Hcur].
  split; [exact Hcard |]. split.
  - destruct (selectedAnswer (state a)); [discriminate | reflexivity].
  - destruct (currentMCQ (state a)) as [q |]; [| discriminate].
    exists q. split; [reflexivity |].
    apply andb_prop in Hcur. destruct Hcur as [Hlo Hhi].
    apply Z.leb_le in Hlo. apply Z.ltb_lt in Hhi. lia.
Qed.

Lemma nextButtonRendered_inv : forall a,
  nextButtonRendered a = true ->
  questionCardRendered a = true
  /\ exists i, selectedAnswer (state a) = Some i.
Proof.
  intros a H. unfold nextButtonRendered in H.
  apply andb_prop in H. destruct H as [Hcard Hsel].
  split; [exact Hcard |].
  destruct (selectedAnswer (state a)) as [i |]; [eauto | discriminate].
Qed.

Lemma retainedNextShown_inv : forall a,
  retainedNextShown a = true ->
  questionCardRendered a = true
  /\ exists captured, retainedNext a = Some captured.
Proof.
  intros a H. unfold retainedNextShown in H.
  apply andb_prop in H. destruct H as [H Hkept].
  apply andb_prop in H. destruct H as [Hcard _].
  split; [exact Hcard |].
  destruct (retainedNext a) as [captured |]; [eauto | discriminate].
Qed.

Lemma callGenerateMCQs_flags : forall g a,
  isAuthenticated (state (callGenerateMCQs g a)) = isAuthenticated (state a)
  /\ searchQuery (callGenerateMCQs g a) = searchQuery a
  /\ currentView (callGenerateMCQs g a) = currentView a
  /\ alerts (callGenerateMCQs g a) = alerts a
  /\ retainedNext (callGenerateMCQs g a) = retainedNext a
  /\ gateExiting (callGenerateMCQs g a) = gateExiting a.
Proof.
  intros g a. unfold callGenerateMCQs, generateMCQs.
  destruct (negb _); simpl; repeat split; reflexivity.
Qed.

Lemma nextQuestion_flags : forall now state prev s',
  nextQuestion now state prev = Normal s' ->
  isAuthenticated s' = isAuthenticated prev
  /\ isLoading s' = isLoading prev
  /\ topic s' = topic prev /\ grade s' = grade prev
  /\ questions s' = questions prev.
Proof.
  intros now state0 prev s' Hrun. unfold nextQuestion in Hrun.
  destruct (jsIndex _ _); [| discriminate]. cbn zeta in Hrun.
  destruct (_ =? _); injection Hrun as <-; repeat split; reflexivity.
Qed.

Lemma coreFacts_initial : coreFacts INITIAL_STATE.
Proof.
  unfold coreFacts, selectionOnOpenQuestion, selectionIsAnOption,
    finishedFacts. simpl.
  repeat split; try lia; try discriminate; try congruence. constructor.
Qed.

Lemma coreFacts_same_core : forall s s',
  questions s' = questions s ->
  currentQuestionIndex s' = currentQuestionIndex s ->
  score s' = score s ->
  isFinished s' = isFinished s ->
  selectedAnswer s' = selectedAnswer s ->
  history s' = history s ->
  coreFacts s -> coreFacts s'.
Proof.
  unfold coreFacts, selectionOnOpenQuestion, selectionIsAnOption,
    finishedFacts, currentMCQ.
  intros s s' Hq Hi Hs Hf Ha Hh. rewrite Hq, Hi, Hs, Hf, Ha, Hh. tauto.
Qed.

Lemma coreFacts_resetQuiz : forall s, coreFacts s -> coreFacts (resetQuiz s).
Proof.
  intros s (_ & _ & _ & _ & _ & Hled).
  unfold coreFacts, selectionOnOpenQuestion, selectionIsAnOption,
    finishedFacts. simpl.
  repeat split; try lia; try discriminate; try congruence; try exact Hled.
Qed.

Lemma coreFacts_resume : forall outcome s,
  coreFacts s -> coreFacts (fst (generateMCQs_resume outcome s)).
Proof.
  intros [qs |] s Hfacts; simpl.
  - destruct Hfacts as (_ & _ & _ & _ & _ & Hled).
    unfold coreFacts, selectionOnOpenQuestion, selectionIsAnOption,
      finishedFacts. simpl.
    repeat split; try lia; try discriminate; try congruence; try exact Hled.
  - revert Hfacts. now apply coreFacts_same_core.
Qed.

Lemma coreFacts_select : forall a idx,
  optionButtonEnabled a idx = true ->
  coreFacts (state a) ->
  coreFacts (handleAnswerSelect idx (state a) (state a)).
Proof.
  intros a idx Hen Hfacts.
  destruct (optionButtonEnabled_inv a idx Hen) as (Hcard & Hnone & q & Hq & Hidx).
  destruct (questionCardRendered_inv a Hcard) as (_ & _ & _ & Hnotfin & _).
  unfold handleAnswerSelect. rewrite Hnone.
  destruct Hfacts as (Hscore & Hlo & _ & _ & Hfin & Hled).
  unfold coreFacts. split; [exact Hscore |]. split; [exact Hlo |].
  split; [| split; [| split; [exact Hfin | exact Hled]]].
  - intros _. split; [exact Hnotfin |].
    apply jsIndex_Some_iff. exists q. exact Hq.
  - intros i Hi. simpl in Hi. injection Hi as <-.
    exists q. split; [exact Hq | exact Hidx].
Qed.

(** [nextQuestion] run with the state [captured] of the render that drew
    its button, on the current session [prev]. *)
Lemma coreFacts_nextQuestion : forall now captured prev s',
  0 <= score captured ->
  (exists q, currentMCQ captured = Some q) ->
  questions prev <> [] ->
  isFinished prev = false ->
  coreFacts prev ->
  nextQuestion now captured prev = Normal s' ->
  coreFacts s'.
Proof.
  intros now captured prev s' Hscore (q & Hq) Hqs Hnotfin Hfacts Hrun.
  destruct Hfacts as (_ & Hlo & _ & _ & _ & Hled).
  assert (Hrange : 0 <= currentQuestionIndex captured
                        < jsLength (questions captured))
    by (apply jsIndex_Some_iff; exists q; exact Hq).
  rewrite (nextQuestion_defined now captured prev q Hq) in Hrun.
  cbn zeta in Hrun.
  set (newScore := if strictEq (selectedAnswer captured) (correctAnswer q)
                   then score captured + 1 else score captured) in *.
  assert (Hnew : 0 <= newScore)
    by (subst newScore; destruct (strictEq _ _); lia).
  destruct (_ =? _); injection Hrun as <-;
    unfold coreFacts, selectionOnOpenQuestion, selectionIsAnOption,
      finishedFacts; simpl.
  - split; [exact Hnew |]. split; [exact Hlo |].
    split; [congruence |]. split; [intros i Hi; discriminate |].
    split.
    + intros _. split; [exact Hqs |]. eexists _, _.
      split; reflexivity.
    + constructor; [| exact Hled]. unfold resultSane. simpl. lia.
  - split; [exact Hnew |]. split; [lia |].
    split; [congruence |]. split; [intros i Hi; discriminate |].
    split; [rewrite Hnotfin; discriminate | exact Hled].
Qed.

Lemma card_has_questions : forall a,
  questionCardRendered a = true ->
  questions (state a) <> [] /\ isFinished (state a) = false.
Proof.
  intros a Hcard.
  destruct (questionCardRendered_inv a Hcard) as (_ & _ & Hlen & Hfin & _).
  split; [| exact Hfin].
  intros Hnil. rewrite Hnil in Hlen. unfold jsLength in Hlen. simpl in Hlen.
  lia.
Qed.

Lemma step_preserves_coreFacts : forall a e,
  retainedFacts a ->
  coreFacts (state a) -> coreFacts (state (step a e)).
Proof.
  intros a e Hkept Hfacts. unfold step.
  destruct (enabled a e) eqn:Hen; [| exact Hfacts].
  destruct e as [| v | | | text | | tag | idx | now | now | | subject g
                 | k outcome | |];
    try exact Hfacts.
  - now apply coreFacts_resetQuiz.
  - destruct (SubmitQuery_fire a) as [-> | ->];
      (revert Hfacts; apply coreFacts_same_core;
       apply (callGenerateMCQs_core None a)).
  - revert Hfacts. apply coreFacts_same_core;
      apply (callGenerateMCQs_core None a).
  - now apply coreFacts_select.
  - cbn [fire enabled] in *.
    destruct (nextQuestion now (state a) (state a)) as [s' |] eqn:Hrun;
      [| exact Hfacts].
    destruct (nextButtonRendered_inv a Hen) as (Hcard & i & Hsel).
    destruct (card_has_questions a Hcard) as (Hqs & Hnotfin).
    destruct Hfacts as (Hscore & Hlo & Hopen & Hopt & Hfin & Hled).
    destruct (Hopt i Hsel) as (q & Hq & _).
    apply (coreFacts_nextQuestion now (state a) (state a) s');
      try assumption; [eauto | unfold coreFacts; tauto].
  - cbn [fire enabled] in *.
    destruct (retainedNextShown_inv a Hen) as (Hcard & captured & Hcap).
    rewrite Hcap.
    destruct (nextQuestion now captured (state a)) as [s' |] eqn:Hrun;
      [| exact Hfacts].
    destruct (card_has_questions a Hcard) as (Hqs & Hnotfin).
    destruct (Hkept captured Hcap) as (Hscore & i & q & _ & Hq).
    apply (coreFacts_nextQuestion now captured (state a) s');
      try assumption. eauto.
  - now apply coreFacts_resetQuiz.
  - revert Hfacts. apply coreFacts_same_core;
      apply (callGenerateMCQs_core (Some g) a).
  - cbn [fire].
    pose proof (coreFacts_resume outcome (state a) Hfacts) as Hres.
    destruct (generateMCQs_resume outcome (state a)) as [s' shown].
    exact Hres.
Qed.

Lemma retainedFacts_rerender : forall a a',
  coreFacts (state a) -> retainedFacts a -> retainedFacts (rerender a a').
Proof.
  intros a a' Hfacts Hkept captured Hcap. cbn [rerender retainedNext] in Hcap.
  destruct (questionCardRendered a' && negb (nextButtonRendered a'));
    [| discriminate].
  destruct (nextButtonRendered a) eqn:Hnext.
  - injection Hcap as <-.
    destruct (nextButtonRendered_inv a Hnext) as (_ & i & Hsel).
    destruct Hfacts as (Hscore & _ & _ & Hopt & _).
    destruct (Hopt i Hsel) as (q & Hq & _).
    split; [exact Hscore | eauto].
  - now apply Hkept.
Qed.

Lemma step_preserves_retainedFacts : forall a e,
  coreFacts (state a) -> retainedFacts a -> retainedFacts (step a e).
Proof.
  intros a e Hfacts Hkept. unfold step.
  destruct (enabled a e); [| exact Hkept].
  destruct e as [| v | | | text | | tag | idx | now | now | | subject g
                 | k outcome | |];
    cbn [fire]; try (now apply retainedFacts_rerender).
  - destruct (generateMCQs _ _ _ _); [now apply retainedFacts_rerender
                                     | exact Hkept].
  - destruct (nextQuestion now (state a) (state a));
      [now apply retainedFacts_rerender | exact Hkept].
  - destruct (retainedNext a) as [captured |]; [| exact Hkept].
    destruct (nextQuestion now captured (state a));
      [now apply retainedFacts_rerender | exact Hkept].
  - destruct (generateMCQs_resume outcome (state a)).
    now apply retainedFacts_rerender.
  - intros captured Hcap. discriminate Hcap.
  - exact Hkept.
Qed.

(** No event signs the user out. *)
Lemma step_keeps_signed_in : forall a e,
  isAuthenticated (state a) = true ->
  isAuthenticated (state (step a e)) = true.
Proof.
  intros a e Hauth. unfold step. destruct (enabled a e); [| exact Hauth].
  destruct e as [| v | | | text | | tag | idx | now | now | | subject g
                 | k outcome | |];
    try exact Hauth; try reflexivity.
  - destruct (SubmitQuery_fire a) as [-> | ->]; cbn;
      now rewrite (proj1 (callGenerateMCQs_flags None a)).
  - cbn. now rewrite (proj1 (callGenerateMCQs_flags None a)).
  - cbn. unfold handleAnswerSelect.
    destruct (selectedAnswer (state a)); exact Hauth.
  - cbn [fire].
    destruct (nextQuestion now (state a) (state a)) as [s' |] eqn:Hrun;
      [| exact Hauth].
    cbn. now rewrite (proj1 (nextQuestion_flags _ _ _ _ Hrun)).
  - cbn [fire]. destruct (retainedNext a) as [captured |]; [| exact Hauth].
    destruct (nextQuestion now captured (state a)) as [s' |] eqn:Hrun;
      [| exact Hauth].
    cbn. now rewrite (proj1 (nextQuestion_flags _ _ _ _ Hrun)).
  - cbn. now rewrite (proj1 (callGenerateMCQs_flags (Some g) a)).
  - cbn [fire]. destruct outcome; cbn; exact Hauth.
Qed.

Lemma step_preserves_signedOutPristine : forall a e,
  signedOutPristine a -> signedOutPristine (step a e).
Proof.
  intros a e Hout Hauth'.
  destruct (isAuthenticated (state a)) eqn:Hauth.
  - rewrite (step_keeps_signed_in a e Hauth) in Hauth'. discriminate.
  - destruct (Hout Hauth) as (Hs & Hq & Hfl & Hal & Hkept & Hgate).
    destruct a as [s q v fl al kept gate].
    cbn [state searchQuery inFlight alerts retainedNext gateExiting] in *.
    subst s q fl al kept gate. revert Hauth'. unfold step.
    destruct e as [| v' | | | text | | tag | idx | now | now | | subject g
                   | k outcome | |];
      cbn; try (intros _; repeat split; reflexivity).
    + destruct (negb (View_eqb v' home)); intros _; repeat split; reflexivity.
    + discriminate.
Qed.

Lemma step_preserves_loadingHasRequest : forall a e,
  loadingHasRequest a -> loadingHasRequest (step a e).
Proof.
  intros a e Hload. unfold step.
  destruct (enabled a e) eqn:Hen; [| exact Hload].
  assert (Hcall : forall g, loadingHasRequest (callGenerateMCQs g a)).
  { intros g. unfold loadingHasRequest, callGenerateMCQs, generateMCQs.
    destruct (negb _); [exact Hload |].
    cbn. intros _ Hnil. now apply app_eq_nil in Hnil. }
  destruct e as [| v | | | text | | tag | idx | now | now | | subject g
                 | k outcome | |];
    try exact Hload.
  - intros H. discriminate H.
  - destruct (SubmitQuery_fire a) as [-> | ->]; apply (Hcall None).
  - apply (Hcall None).
  - unfold loadingHasRequest. cbn. unfold handleAnswerSelect.
    destruct (selectedAnswer (state a)); exact Hload.
  - cbn [fire].
    destruct (nextQuestion now (state a) (state a)) as [s' |] eqn:Hrun;
      [| exact Hload].
    unfold loadingHasRequest. cbn.
    rewrite (proj1 (proj2 (nextQuestion_flags _ _ _ _ Hrun))).
    exact Hload.
  - cbn [fire]. destruct (retainedNext a) as [captured |]; [| exact Hload].
    destruct (nextQuestion now captured (state a)) as [s' |] eqn:Hrun;
      [| exact Hload].
    unfold loadingHasRequest. cbn.
    rewrite (proj1 (proj2 (nextQuestion_flags _ _ _ _ Hrun))).
    exact Hload.
  - intros H. discriminate H.
  - apply (Hcall (Some g)).
  - cbn [fire]. destruct outcome; intros H; discriminate H.
Qed.

Lemma appInvariant_initial : appInvariant initialApp.
Proof.
  unfold appInvariant.
  split; [exact coreFacts_initial |].
  split; [intros _; repeat split; reflexivity |].
  split; [intros H; discriminate H |].
  intros captured H. discriminate H.
Qed.

Lemma step_preserves_appInvariant : forall a e,
  appInvariant a -> appInvariant (step a e).
Proof.
  intros a e (Hfacts & Hout & Hload & Hkept).
  unfold appInvariant.
  split; [now apply step_preserves_coreFacts |].
  split; [now apply step_preserves_signedOutPristine |].
  split; [now apply step_preserves_loadingHasRequest |].
  now apply step_preserves_retainedFacts.
Qed.

Lemma reachable_run_from : forall events a,
  reachable a -> reachable (run events a).
Proof.
  induction events as [| e rest IH]; intros a Ha; simpl.
  - exact Ha.
  - apply IH. now apply reachable_step.
Qed.

Lemma reachable_run : forall events, reachable (run events initialApp).
Proof. intros events. apply reachable_run_from. apply reachable_init. Qed.

Lemma run_appInvariant : forall events, appInvariant (run events initialApp).
Proof.
  intros events.
  assert (Hgen : forall a, reachable a -> appInvariant a).
  { induction 1 as [| a e _ IH].
    - exact appInvariant_initial.
    - now apply step_preserves_appInvariant. }
  apply Hgen. apply reachable_run.
Qed.

(* ================================================================== *)
(** ** Runs without a click on a kept Next button *)
(* ================================================================== *)

Lemma sessionInvariant_initial : sessionInvariant INITIAL_STATE.
Proof.
  unfold sessionInvariant, indexInRange, scoreBounded, selectionOnOpenQuestion.
  simpl. repeat split; try lia; try (left; reflexivity); congruence.
Qed.

(** The invariant only looks at five fields. *)
Lemma sessionInvariant_same_core : forall s s',
  questions s' = questions s ->
  currentQuestionIndex s' = currentQuestionIndex s ->
  score s' = score s ->
  isFinished s' = isFinished s ->
  selectedAnswer s' = selectedAnswer s ->
  sessionInvariant s -> sessionInvariant s'.
Proof.
  unfold sessionInvariant, indexInRange, scoreBounded, selectionOnOpenQuestion.
  intros s s' Hq Hi Hs Hf Ha. rewrite Hq, Hi, Hs, Hf, Ha. tauto.
Qed.


Lemma sessionInvariant_callGenerateMCQs : forall g a,
  sessionInvariant (state a) -> sessionInvariant (state (callGenerateMCQs g a)).
Proof.
  intros g a. destruct (callGenerateMCQs_core g a) as (Hq & Hi & Hs & Hf & Ha & _).
  now apply sessionInvariant_same_core.
Qed.

Lemma sessionInvariant_resume : forall outcome s,
  sessionInvariant s -> sessionInvariant (fst (generateMCQs_resume outcome s)).
Proof.
  intros [qs |] s Hinv; simpl.
  - unfold sessionInvariant, indexInRange, scoreBounded, selectionOnOpenQuestion.
    simpl. repeat split; try lia; try congruence.
    destruct qs as [| q qs']; [left; reflexivity | right].
    unfold jsLength. simpl. lia.
  - revert Hinv. now apply sessionInvariant_same_core.
Qed.

Lemma sessionInvariant_resetQuiz : forall s, sessionInvariant (resetQuiz s).
Proof.
  intros s. apply (sessionInvariant_same_core INITIAL_STATE); try reflexivity.
  exact sessionInvariant_initial.
Qed.

Lemma sessionInvariant_select : forall a idx,
  optionButtonEnabled a idx = true ->
  sessionInvariant (state a) ->
  sessionInvariant (handleAnswerSelect idx (state a) (state a)).
Proof.
  intros a idx Hen Hinv. unfold optionButtonEnabled in Hen.
  apply andb_prop in Hen. destruct Hen as [Hen _].
  apply andb_prop in Hen. destruct Hen as [Hcard Hcur].
  apply questionCardRendered_inv in Hcard.
  destruct Hcard as (_ & _ & Hlen & Hfin & _).
  unfold handleAnswerSelect.
  destruct (selectedAnswer (state a)) eqn:Hsel; [exact Hinv |].
  destruct Hinv as ((Hlo & Hhi) & Hscore & _).
  unfold sessionInvariant, indexInRange, scoreBounded, selectionOnOpenQuestion.
  simpl. repeat split; try assumption.
  destruct Hhi as [Hnil | Hlt]; [| exact Hlt].
  rewrite Hnil in Hlen. unfold jsLength in Hlen. simpl in Hlen. lia.
Qed.

Lemma sessionInvariant_next : forall a now s',
  nextButtonRendered a = true ->
  sessionInvariant (state a) ->
  nextQuestion now (state a) (state a) = Normal s' ->
  sessionInvariant s'.
Proof.
  intros a now s' Hen Hinv Hrun. unfold nextButtonRendered in Hen.
  apply andb_prop in Hen. destruct Hen as [Hcard _].
  apply questionCardRendered_inv in Hcard.
  destruct Hcard as (_ & _ & Hlen & Hfin & _).
  destruct Hinv as ((Hlo & Hhi) & Hscore & _).
  unfold scoreBounded in Hscore. rewrite Hfin in Hscore.
  unfold nextQuestion in Hrun.
  destruct (jsIndex (questions (state a)) (currentQuestionIndex (state a)))
    as [q |]; [| discriminate].
  assert (Hlt : currentQuestionIndex (state a) < jsLength (questions (state a))).
  { destruct Hhi as [Hnil | Hlt]; [| exact Hlt].
    rewrite Hnil in Hlen. unfold jsLength in Hlen. simpl in Hlen. lia. }
  cbn zeta in Hrun.
  destruct (Z.eqb_spec (currentQuestionIndex (state a))
              (jsLength (questions (state a)) - 1)) as [Hlast | Hmid];
    injection Hrun as <-;
    unfold sessionInvariant, indexInRange, scoreBounded, selectionOnOpenQuestion;
    simpl;
    destruct (strictEq (selectedAnswer (state a)) (correctAnswer q));
    try rewrite Hfin;
    repeat split; try lia; try (right; lia); try congruence.
Qed.

Lemma step_preserves_sessionInvariant : forall a e,
  isFreshEvent e = true ->
  sessionInvariant (state a) -> sessionInvariant (state (step a e)).
Proof.
  intros a e Hfresh Hinv. unfold step.
  destruct (enabled a e) eqn:Hen; [| exact Hinv].
  destruct e as [| v | | | text | | tag | idx | now | now | | subject g
                 | k outcome | |];
    try discriminate Hfresh; try exact Hinv.
  - apply sessionInvariant_resetQuiz.
  - destruct (SubmitQuery_fire a) as [-> | ->];
      now apply sessionInvariant_callGenerateMCQs.
  - now apply (sessionInvariant_callGenerateMCQs None).
  - now apply sessionInvariant_select.
  - cbn [fire enabled] in *.
    destruct (nextQuestion now (state a) (state a)) as [s' |] eqn:Hrun;
      [| exact Hinv].
    now apply (sessionInvariant_next a now s').
  - apply sessionInvariant_resetQuiz.
  - now apply (sessionInvariant_callGenerateMCQs (Some g)).
  - cbn [fire].
    pose proof (sessionInvariant_resume outcome (state a) Hinv) as Hres.
    destruct (generateMCQs_resume outcome (state a)) as [s' shown].
    exact Hres.
Qed.

Lemma sessionFacts_same_core : forall s s',
  questions s' = questions s ->
  currentQuestionIndex s' = currentQuestionIndex s ->
  score s' = score s ->
  isFinished s' = isFinished s ->
  selectedAnswer s' = selectedAnswer s ->
  history s' = history s ->
  sessionFacts s -> sessionFacts s'.
Proof.
  unfold sessionFacts, finishedShape, selectionIsAnOption, currentMCQ.
  intros s s' Hq Hi Hs Hf Ha Hh. rewrite Hq, Hi, Hs, Hf, Ha, Hh. tauto.
Qed.

Lemma sessionFacts_initial : sessionFacts INITIAL_STATE.
Proof.
  unfold sessionFacts, finishedShape, selectionIsAnOption. simpl.
  repeat split; try lia; try discriminate. constructor.
Qed.

Lemma sessionFacts_resetQuiz : forall s,
  sessionFacts s -> sessionFacts (resetQuiz s).
Proof.
  intros s (_ & _ & _ & Hled).
  unfold sessionFacts, finishedShape, selectionIsAnOption. simpl.
  repeat split; try lia; try discriminate. exact Hled.
Qed.

Lemma sessionFacts_resume : forall outcome s,
  sessionFacts s -> sessionFacts (fst (generateMCQs_resume outcome s)).
Proof.
  intros [qs |] s Hfacts; simpl.
  - destruct Hfacts as (_ & _ & _ & Hled).
    unfold sessionFacts, finishedShape, selectionIsAnOption. simpl.
    repeat split; try lia; try discriminate. exact Hled.
  - revert Hfacts. now apply sessionFacts_same_core.
Qed.

Lemma sessionFacts_select : forall a idx,
  optionButtonEnabled a idx = true ->
  sessionFacts (state a) ->
  sessionFacts (handleAnswerSelect idx (state a) (state a)).
Proof.
  intros a idx Hen Hfacts.
  destruct (optionButtonEnabled_inv a idx Hen) as (_ & Hnone & q & Hq & Hidx).
  unfold handleAnswerSelect. rewrite Hnone.
  destruct Hfacts as (Hscore & Hfin & _ & Hled).
  unfold sessionFacts. split; [exact Hscore |]. split; [exact Hfin |].
  split; [| exact Hled].
  intros i Hi. simpl in Hi. injection Hi as <-.
  exists q. split; [exact Hq | exact Hidx].
Qed.

Lemma sessionFacts_next : forall a now s',
  nextButtonRendered a = true ->
  sessionInvariant (state a) ->
  sessionFacts (state a) ->
  nextQuestion now (state a) (state a) = Normal s' ->
  sessionFacts s'.
Proof.
  intros a now s' Hen Hinv Hfacts Hrun. unfold nextButtonRendered in Hen.
  apply andb_prop in Hen. destruct Hen as [Hcard _].
  apply questionCardRendered_inv in Hcard.
  destruct Hcard as (_ & _ & Hlen & Hnotfin & _).
  destruct Hinv as ((Hlo & _) & Hbound & _).
  unfold scoreBounded in Hbound. rewrite Hnotfin in Hbound.
  destruct Hfacts as (Hscore & _ & _ & Hled).
  unfold nextQuestion in Hrun.
  destruct (jsIndex (questions (state a)) (currentQuestionIndex (state a)))
    as [q |]; [| discriminate].
  cbn zeta in Hrun.
  set (newScore := if strictEq (selectedAnswer (state a)) (correctAnswer q)
                   then score (state a) + 1 else score (state a)) in *.
  assert (Hnew : score (state a) <= newScore <= score (state a) + 1)
    by (subst newScore; destruct (strictEq _ _); lia).
  destruct (Z.eqb_spec (currentQuestionIndex (state a))
              (jsLength (questions (state a)) - 1)) as [Hlast | Hmid];
    injection Hrun as <-;
    unfold sessionFacts, finishedShape, selectionIsAnOption; simpl.
  - split; [lia |]. split.
    + intros _. split; [exact Hlast |]. eexists _, _.
      split; [reflexivity |]. split; reflexivity.
    + split; [intros i Hi; discriminate |].
      constructor; [| exact Hled].
      unfold resultWellFormed. simpl. lia.
  - split; [lia |]. split; [rewrite Hnotfin; discriminate |].
    split; [intros i Hi; discriminate | exact Hled].
Qed.

Lemma step_preserves_sessionFacts : forall a e,
  isFreshEvent e = true ->
  sessionInvariant (state a) ->
  sessionFacts (state a) -> sessionFacts (state (step a e)).
Proof.
  intros a e Hfresh Hinv Hfacts. unfold step.
  destruct (enabled a e) eqn:Hen; [| exact Hfacts].
  destruct e as [| v | | | text | | tag | idx | now | now | | subject g
                 | k outcome | |];
    try discriminate Hfresh; try exact Hfacts.
  - now apply sessionFacts_resetQuiz.
  - destruct (SubmitQuery_fire a) as [-> | ->];
      (revert Hfacts; apply sessionFacts_same_core;
       apply (callGenerateMCQs_core None a)).
  - revert Hfacts. apply sessionFacts_same_core;
      apply (callGenerateMCQs_core None a).
  - now apply sessionFacts_select.
  - cbn [fire enabled] in *.
    destruct (nextQuestion now (state a) (state a)) as [s' |] eqn:Hrun;
      [| exact Hfacts].
    now apply (sessionFacts_next a now s').
  - now apply sessionFacts_resetQuiz.
  - revert Hfacts. apply sessionFacts_same_core;
      apply (callGenerateMCQs_core (Some g) a).
  - cbn [fire].
    pose proof (sessionFacts_resume outcome (state a) Hfacts) as Hres.
    destruct (generateMCQs_resume outcome (state a)) as [s' shown].
    exact Hres.
Qed.

Lemma freshClicksOnly_invariants : forall events a,
  freshClicksOnly events = true ->
  sessionInvariant (state a) -> sessionFacts (state a) ->
  sessionInvariant (state (run events a))
  /\ sessionFacts (state (run events a)).
Proof.
  induction events as [| e rest IH]; intros a Hfresh Hinv Hfacts.
  - split; assumption.
  - cbn [freshClicksOnly forallb] in Hfresh.
    apply andb_prop in Hfresh. destruct Hfresh as [He Hrest].
    cbn [run fold_left]. apply IH; [exact Hrest | |].
    + now apply step_preserves_sessionInvariant.
    + now apply step_preserves_sessionFacts.
Qed.

Lemma freshClicksOnly_run : forall events,
  freshClicksOnly events = true ->
  sessionInvariant (state (run events initialApp))
  /\ sessionFacts (state (run events initialApp)).
Proof.
  intros events Hfresh. apply freshClicksOnly_invariants;
    [exact Hfresh | exact sessionInvariant_initial | exact sessionFacts_initial].
Qed.


(** In the running application an answer is selected only while its
    question exists, which is what [Advance] needs to read it. *)
Lemma selection_has_current_question : forall events a0,
  selectedAnswer (state (run events initialApp)) = Some a0 ->
  exists q, currentMCQ (state (run events initialApp)) = Some q.
Proof.
  intros events a0 Hsel.
  destruct (run_appInvariant events) as ((_ & _ & _ & Hopt & _) & _).
  destruct (Hopt a0 Hsel) as (q & Hq & _). eauto.
Qed.

Lemma fresh_next_in_bounds : forall events,
  nextButtonRendered (run events initialApp) = true ->
  0 <= currentQuestionIndex (state (run events initialApp))
    < jsLength (questions (state (run events initialApp))).
Proof.
  intros events Hnext.
  destruct (nextButtonRendered_inv _ Hnext) as (_ & i & Hsel).
  destruct (run_appInvariant events) as ((_ & _ & Hopen & _) & _).
  apply Hopen. rewrite Hsel. discriminate.
Qed.

(** While a request is pending the home view shows neither the search
    box, nor the Generate button, nor the topic tags. *)
Lemma hero_hidden_while_loading : forall a text tag,
  isLoading (state a) = true ->
  enabled a SubmitQuery = false
  /\ enabled a (ChangeQuery text) = false
  /\ enabled a (ClickTag tag) = false.
Proof.
  intros a text tag Hload. cbn [enabled]. unfold heroRendered.
  rewrite Hload. cbn [negb]. rewrite andb_false_r. repeat split.
Qed.

(* ================================================================== *)
(** ** Advancing twice *)
(* ================================================================== *)

Lemma nextQuestion_clears_selection : forall now state prev s',
  nextQuestion now state prev = Normal s' -> selectedAnswer s' = None.
Proof.
  intros now state prev s' Hrun. unfold nextQuestion in Hrun.
  destruct (jsIndex _ _); [| discriminate].
  cbn zeta in Hrun.
  destruct (_ =? _); injection Hrun as <-; reflexivity.
Qed.

Lemma nextQuestion_throw_any_clock : forall t1 t2 state prev e,
  nextQuestion t1 state prev = Throw e -> nextQuestion t2 state prev = Throw e.
Proof.
  intros t1 t2 state prev e. unfold nextQuestion.
  destruct (jsIndex _ _); [| trivial].
  cbn zeta. destruct (_ =? _); discriminate.
Qed.

(** [nextQuestion] does not test [selectedAnswer]: called again right
    after the first call on a two-question session, it moves past the
    unanswered second question, finishes the session and appends to the
    ledger. *)
Lemma Advance_twice_on_the_handler :
  exists s1 s2,
    Advance clock twoQuestionSession = Normal s1
    /\ selectedAnswer s1 = None
    /\ Advance clock s1 = Normal s2
    /\ s2 <> s1
    /\ isFinished s1 = false /\ isFinished s2 = true
    /\ history s1 = [] /\ List.length (history s2) = 1%nat.
Proof.
  eexists. eexists.
  split; [vm_compute; reflexivity |].
  split; [reflexivity |].
  split; [vm_compute; reflexivity |].
  split; [intros Heq; discriminate Heq |].
  repeat split.
Qed.

(** C3.  The view renders the Next button only while an answer is
    selected (line 396), but line 395 keeps the button on screen after the
    first click has cleared the selection, with the handler of the render
    that drew it.  On a two-question quiz with the first question
    answered, the second click is accepted: it runs [nextQuestion] with
    index 0 captured and moves the session from index 1 to index 2, past
    the end of the list, leaving score 1 and the ledger as they are; the
    card is then rendered with no current question. *)
Theorem second_click_on_next_moves_the_index_again :
  exists a1 a2,
    runChecked (firstQuestionAnswered ++ [ClickNext clock]) initialApp = Some a1
    /\ selectedAnswer (state a1) = None
    /\ nextButtonRendered a1 = false
    /\ enabled a1 (ClickRetainedNext clock) = true
    /\ step a1 (ClickRetainedNext clock) = a2
    /\ runChecked doubleClickOnNext initialApp = Some a2
    /\ currentQuestionIndex (state a1) = 1
    /\ currentQuestionIndex (state a2) = 2
    /\ jsLength (questions (state a2)) = 2
    /\ score (state a1) = 1 /\ score (state a2) = 1
    /\ isFinished (state a2) = false
    /\ history (state a2) = []
    /\ state a2 <> state a1
    /\ currentMCQ (state a2) = None
    /\ renderThrows a2 = true.
Proof.
  do 2 eexists.
  split; [vm_compute; reflexivity |].
  split; [reflexivity |]. split; [reflexivity |]. split; [reflexivity |].
  split; [vm_compute; reflexivity |].
  split; [vm_compute; reflexivity |].
  repeat split. intros Heq. discriminate Heq.
Qed.

(* ================================================================== *)
(** ** Starting a generation *)
(* ================================================================== *)

(** C4.  [generateMCQs] does not look at [isLoading], and the Subjects
    view stays clickable while a request is pending (only the home view
    hides its search controls).  After [loadingOnSubjects] the session is
    loading with one request in flight; a click on a subject card is
    accepted, sends a second request for the same session and overwrites
    the recorded grade. *)
Theorem reentrant_generation_is_accepted :
  exists before after r1 r2,
    runChecked loadingOnSubjects initialApp = Some before
    /\ isLoading (state before) = true
    /\ inFlight before = [r1]
    /\ enabled before secondStart = true
    /\ step before secondStart = after
    /\ inFlight after = [r1; r2]
    /\ grade (state before) = Some G11
    /\ grade (state after) = Some G12
    /\ StartGeneration (searchQuery before) (Some G12) (state before)
       = Some (state after, r2).
Proof.
  do 4 eexists.
  split; [vm_compute; reflexivity |].
  repeat split; vm_compute; reflexivity.
Qed.

Lemma trimStart_nil_iff : forall s,
  JsString.trimStart s = [] <-> forallb JsString.isWhiteSpace s = true.
Proof.
  induction s as [| c rest IH]; simpl.
  - tauto.
  - destruct (JsString.isWhiteSpace c); simpl; [exact IH |].
    split; discriminate.
Qed.

Lemma trimStart_head : forall s c rest,
  JsString.trimStart s = c :: rest -> JsString.isWhiteSpace c = false.
Proof.
  induction s as [| x s' IH]; simpl; intros c rest H.
  - discriminate.
  - destruct (JsString.isWhiteSpace x) eqn:Hx.
    + now apply (IH c rest).
    + now injection H as <- _.
Qed.

(** [trim] leaves nothing exactly when every code unit is white space. *)
Lemma trim_nil_iff : forall s,
  JsString.trim s = [] <-> forallb JsString.isWhiteSpace s = true.
Proof.
  intros s. unfold JsString.trim, JsString.trimEnd. split.
  - intros H. apply (f_equal (@rev N)) in H. rewrite rev_involutive in H.
    simpl in H. apply trimStart_nil_iff in H.
    rewrite forallb_forall in H.
    destruct (JsString.trimStart s) as [| c rest] eqn:Hs.
    + now apply trimStart_nil_iff.
    + pose proof (trimStart_head s c rest Hs) as Hc.
      rewrite (H c) in Hc; [discriminate |].
      apply -> in_rev. now left.
  - intros H. apply trimStart_nil_iff in H. rewrite H. reflexivity.
Qed.

(** C8.  With a topic that trims to the empty string, [generateMCQs]
    returns before its first [setState]: no request is sent, no alert is
    shown, and the session (so [isLoading] too) is the very same record.
    This also holds where it is called from the search box. *)
Theorem blank_topic_is_ignored :
  forall (topic : jsstring) (gradeLevel : option Grade) (s : QuizState),
    JsString.trim topic = [] ->
    StartGeneration topic gradeLevel s = None
    /\ applyOp s (OpStartGeneration topic gradeLevel) = s
    /\ (forall a : App,
          searchQuery a = topic ->
          callGenerateMCQs gradeLevel a = a
          /\ step a SubmitQuery = a).
Proof.
  intros q g s Hblank.
  assert (Hnone : forall g' st, generateMCQs q g' st st = None).
  { intros g' st. unfold generateMCQs. rewrite Hblank. reflexivity. }
  split; [apply Hnone |]. split.
  - cbn [applyOp]. unfold StartGeneration. now rewrite Hnone.
  - intros a Hq. split.
    + unfold callGenerateMCQs. rewrite Hq, Hnone. reflexivity.
    + unfold step. destruct (enabled a SubmitQuery); [| reflexivity].
      cbn [fire]. rewrite Hq, Hnone. reflexivity.
Qed.

Lemma blank_topic_is_ignored_witness :
  StartGeneration [32%N; 9%N; 32%N] None twoQuestionSession = None
  /\ applyOp twoQuestionSession (OpStartGeneration [32%N; 9%N; 32%N] None)
     = twoQuestionSession.
Proof.
  destruct (blank_topic_is_ignored [32%N; 9%N; 32%N] None twoQuestionSession
              eq_refl) as (Hnone & Hsame & _).
  split; assumption.
Defined.

(** C5.  On the failure path [generateMCQs] writes [isLoading: false] and
    nothing else, then raises one alert; questions, index, score,
    [isFinished], the selection, the ledger and every other field are the
    ones the session had when the failure arrived.  In the application
    the search box and the view are untouched as well. *)
Theorem generation_failure_only_clears_loading :
  forall s : QuizState,
    let s' := fst (OnGenerationComplete Rejected s) in
    s' = set_isLoading false s
    /\ snd (OnGenerationComplete Rejected s) = [failureMessage]
    /\ isLoading s' = false
    /\ questions s' = questions s
    /\ currentQuestionIndex s' = currentQuestionIndex s
    /\ score s' = score s
    /\ isFinished s' = isFinished s
    /\ selectedAnswer s' = selectedAnswer s
    /\ history s' = history s
    /\ topic s' = topic s /\ grade s' = grade s
    /\ isAuthenticated s' = isAuthenticated s
    /\ (forall (a : App) (k : nat),
          state a = s ->
          state (fire a (Settle k Rejected)) = s'
          /\ alerts (fire a (Settle k Rejected)) = alerts a ++ [failureMessage]
          /\ searchQuery (fire a (Settle k Rejected)) = searchQuery a
          /\ currentView (fire a (Settle k Rejected)) = currentView a).
Proof.
  intros s. cbn zeta. repeat split; try reflexivity;
    cbn [fire generateMCQs_resume state]; subst s; reflexivity.
Qed.

Lemma generation_failure_only_clears_loading_witness :
  state (fire (run oneRequestPending initialApp) (Settle 0 Rejected))
  = set_isLoading false (state (run oneRequestPending initialApp))
  /\ alerts (fire (run oneRequestPending initialApp) (Settle 0 Rejected))
     = [failureMessage].
Proof.
  destruct (generation_failure_only_clears_loading
              (state (run oneRequestPending initialApp)))
    as (_ & _ & _ & _ & _ & _ & _ & _ & _ & _ & _ & _ & Happ).
  destruct (Happ (run oneRequestPending initialApp) 0%nat eq_refl)
    as (Hstate & Halerts & _).
  split; [exact Hstate | exact Halerts].
Defined.

(* ================================================================== *)
(** ** Score bound *)
(* ================================================================== *)

(** The handlers alone do not keep the bound: every call below meets the
    operation's own precondition, yet the last question of a finished
    session is scored a second time. *)
Lemma score_bound_on_the_handlers :
  let s := applyAll rescoreFinished INITIAL_STATE in
  score s = 2 /\ currentQuestionIndex s = 0 /\ isFinished s = true
  /\ ~ scoreBounded s.
Proof.
  cbn zeta. repeat split. unfold scoreBounded. vm_compute. intros H. apply H.
  reflexivity.
Qed.

(** C6.  The view hides the question card of a finished session and the
    Next button of an unanswered question, but the Next button kept by
    line 395 still runs the handler of the render that drew it.  In
    [staleFinishOnNewQuiz] the second question of a two-question quiz is
    answered with one point scored, new questions arrive, and the kept
    Finish button is clicked: its handler writes the old quiz's score 2
    onto the new session and finishes it at index 0, so
    [score > currentQuestionIndex + 1]. *)
Theorem kept_finish_button_breaks_the_score_bound :
  exists before a,
    runChecked (removelast staleFinishOnNewQuiz) initialApp = Some before
    /\ scoreBounded (state before)
    /\ nextButtonRendered before = false
    /\ enabled before (ClickRetainedNext clock) = true
    /\ step before (ClickRetainedNext clock) = a
    /\ runChecked staleFinishOnNewQuiz initialApp = Some a
    /\ jsLength (questions (state a)) = 3
    /\ currentQuestionIndex (state a) = 0
    /\ isFinished (state a) = true
    /\ score (state a) = 2
    /\ ~ scoreBounded (state a).
Proof.
  do 2 eexists.
  split; [vm_compute; reflexivity |].
  split; [unfold scoreBounded; vm_compute; discriminate |].
  split; [reflexivity |]. split; [reflexivity |].
  split; [vm_compute; reflexivity |].
  split; [vm_compute; reflexivity |].
  repeat split. unfold scoreBounded. vm_compute. intros H. apply H.
  reflexivity.
Qed.

(* ================================================================== *)
(** ** Selecting an answer *)
(* ================================================================== *)

(** C7.  From a session with no answer selected, [SelectAnswer idx] makes
    [idx] the selection and changes nothing else; any number of further
    [SelectAnswer] calls after it leave the session exactly as it is, so
    the selection stays [idx]. *)
Theorem first_selection_wins :
  forall (s : QuizState) (idx : Z) (others : list Z),
    selectedAnswer s = None ->
    selectedAnswer (SelectAnswer idx s) = Some idx
    /\ SelectAnswer idx s = set_selectedAnswer (Some idx) s
    /\ fold_left (fun st other => SelectAnswer other st) others
         (SelectAnswer idx s) = SelectAnswer idx s
    /\ selectedAnswer
         (fold_left (fun st other => SelectAnswer other st) others
            (SelectAnswer idx s)) = Some idx.
Proof.
  intros s idx others Hnone.
  rewrite (SelectAnswer_fresh idx s Hnone).
  assert (Hkeep : forall l st,
             selectedAnswer st <> None ->
             fold_left (fun st' other => SelectAnswer other st') l st = st).
  { induction l as [| other l IH]; intros st Hset; simpl; [reflexivity |].
    assert (Hsame : SelectAnswer other st = st).
    { unfold SelectAnswer, handleAnswerSelect.
      destruct (selectedAnswer st); [reflexivity | congruence]. }
    rewrite Hsame. now apply IH. }
  repeat split; try reflexivity;
    rewrite Hkeep; try reflexivity; simpl; discriminate.
Qed.

Lemma first_selection_wins_witness :
  selectedAnswer
    (fold_left (fun st other => SelectAnswer other st) [1; 3; 2]
       (SelectAnswer 2 (set_selectedAnswer None twoQuestionSession)))
  = Some 2.
Proof.
  apply (first_selection_wins (set_selectedAnswer None twoQuestionSession) 2
           [1; 3; 2] eq_refl).
Defined.

(* ================================================================== *)
(** ** Reset *)
(* ================================================================== *)

(** C10.  [resetQuiz] puts every session field back to its initial value
    (empty topic, no grade, no questions, index 0, score 0, nothing
    selected, not finished, not loading) and keeps the ledger as it was;
    the sign-in flag is kept too.  Both controls that call it leave the
    ledger alone. *)
Theorem Reset_returns_to_idle_keeping_the_ledger :
  forall s : QuizState,
    topic (Reset s) = []
    /\ grade (Reset s) = None
    /\ questions (Reset s) = []
    /\ currentQuestionIndex (Reset s) = 0
    /\ score (Reset s) = 0
    /\ selectedAnswer (Reset s) = None
    /\ isFinished (Reset s) = false
    /\ isLoading (Reset s) = false
    /\ history (Reset s) = history s
    /\ isAuthenticated (Reset s) = isAuthenticated s
    /\ applyOp s OpReset = Reset s
    /\ (forall a : App,
          state a = s ->
          state (fire a ClickTryAnother) = Reset s
          /\ state (fire a ClickLogo) = Reset s).
Proof.
  intros s. repeat split; try reflexivity; subst s; reflexivity.
Qed.

Lemma Reset_returns_to_idle_keeping_the_ledger_witness :
  state (fire (run firstQuestionAnswered initialApp) ClickTryAnother)
  = Reset (state (run firstQuestionAnswered initialApp)).
Proof.
  destruct (Reset_returns_to_idle_keeping_the_ledger
              (state (run firstQuestionAnswered initialApp)))
    as (_ & _ & _ & _ & _ & _ & _ & _ & _ & _ & _ & Happ).
  apply (Happ (run firstQuestionAnswered initialApp) eq_refl).
Defined.

(* ================================================================== *)
(** ** An empty question list *)
(* ================================================================== *)

(** C9, as the claim states it, fails for the handler: [nextQuestion]
    reads [questions[currentQuestionIndex].correctAnswer] without a test
    of its own.  After a generation that delivers no question and one
    [SelectAnswer], [Advance] meets its precondition and throws. *)
Lemma empty_quiz_counterexample :
  let s := applyAll answerEmptyQuiz INITIAL_STATE in
  questions s = [] /\ isLoading s = false /\ isFinished s = false
  /\ selectedAnswer s = Some 0
  /\ currentMCQ s = None
  /\ Advance clock s = Throw TypeError.
Proof. cbn zeta. repeat split. Qed.

Lemma empty_questions_hide_the_card : forall a,
  questions (state a) = [] -> questionCardRendered a = false.
Proof.
  intros a Hnil. unfold questionCardRendered. rewrite Hnil.
  cbn [jsLength List.length Z.of_nat Z.ltb Z.compare].
  now rewrite andb_false_r.
Qed.

(** C9, amended.  When a pending generation delivers no question, the
    session gets an empty list with [isLoading] and [isFinished] false;
    the view then shows the search screen again and no option button and
    no Next button, rendered or kept, so no session operation that reads
    the current question can be triggered.  The read itself is unguarded
    in [nextQuestion]; what keeps it in bounds is the view: in every state
    the application reaches, whenever [nextQuestion] runs, from the
    rendered Next button or from the one line 395 still shows, the
    question it reads exists in the state its closure holds, and it
    returns normally. *)
Theorem handler_reads_its_question_in_bounds :
  forall events : list Event,
    let a := run events initialApp in
    (forall now,
        enabled a (ClickNext now) = true ->
        0 <= currentQuestionIndex (state a) < jsLength (questions (state a))
        /\ exists q s',
             currentMCQ (state a) = Some q
             /\ nextQuestion now (state a) (state a) = Normal s')
    /\ (forall now,
          enabled a (ClickRetainedNext now) = true ->
          exists captured q s',
            retainedNext a = Some captured
            /\ 0 <= currentQuestionIndex captured
                  < jsLength (questions captured)
            /\ currentMCQ captured = Some q
            /\ nextQuestion now captured (state a) = Normal s')
    /\ (forall k,
          enabled a (Settle k (Resolved [])) = true ->
          let a' := step a (Settle k (Resolved [])) in
          questions (state a') = []
          /\ currentQuestionIndex (state a') = 0
          /\ isLoading (state a') = false
          /\ isFinished (state a') = false
          /\ currentMCQ (state a') = None
          /\ questionCardRendered a' = false
          /\ heroRendered a' = contentRendered a' home
          /\ (forall idx, enabled a' (ClickOption idx) = false)
          /\ (forall now, enabled a' (ClickNext now) = false)
          /\ (forall now, enabled a' (ClickRetainedNext now) = false)).
Proof.
  intros events a.
  destruct (run_appInvariant events) as ((_ & _ & _ & Hopt & _) & _ & _ & Hkept).
  fold a in Hopt, Hkept.
  assert (Hreturns : forall now captured prev q,
             currentMCQ captured = Some q ->
             exists s', nextQuestion now captured prev = Normal s').
  { intros now captured prev q Hq.
    rewrite (nextQuestion_defined now captured prev q Hq). cbn zeta.
    destruct (_ =? _); eexists; reflexivity. }
  split; [| split].
  - intros now Hen. cbn [enabled] in Hen.
    split; [now apply fresh_next_in_bounds |].
    destruct (nextButtonRendered_inv a Hen) as (_ & i & Hsel).
    destruct (Hopt i Hsel) as (q & Hq & _).
    destruct (Hreturns now (state a) (state a) q Hq) as (s' & Hrun).
    exists q, s'. split; assumption.
  - intros now Hen. cbn [enabled] in Hen.
    destruct (retainedNextShown_inv a Hen) as (_ & captured & Hcap).
    destruct (Hkept captured Hcap) as (_ & i & q & _ & Hq).
    destruct (Hreturns now captured (state a) q Hq) as (s' & Hrun).
    exists captured, q, s'. split; [exact Hcap |].
    split; [apply jsIndex_Some_iff; eauto |]. split; assumption.
  - intros k Hen a'. subst a'. unfold step. rewrite Hen.
    cbn [fire generateMCQs_resume].
    split; [reflexivity |]. split; [reflexivity |]. split; [reflexivity |].
    split; [reflexivity |]. split; [reflexivity |].
    split; [now apply empty_questions_hide_the_card |].
    split; [unfold heroRendered; cbn; now rewrite !andb_true_r |].
    split; [| split]; intros; cbn [enabled];
      unfold optionButtonEnabled, nextButtonRendered, retainedNextShown;
      rewrite empty_questions_hide_the_card; reflexivity.
Qed.

Lemma handler_reads_its_question_in_bounds_witness :
  (0 <= currentQuestionIndex (state (run firstQuestionAnswered initialApp))
     < jsLength (questions (state (run firstQuestionAnswered initialApp))))
  /\ (exists captured q s',
        retainedNext (run (firstQuestionAnswered ++ [ClickNext clock])
                        initialApp) = Some captured
        /\ 0 <= currentQuestionIndex captured < jsLength (questions captured)
        /\ currentMCQ captured = Some q
        /\ nextQuestion clock captured
             (state (run (firstQuestionAnswered ++ [ClickNext clock])
                       initialApp)) = Normal s')
  /\ questionCardRendered
       (step (run oneRequestPending initialApp) (Settle 0 (Resolved [])))
     = false.
Proof.
  split; [| split].
  - destruct (handler_reads_its_question_in_bounds firstQuestionAnswered)
      as (Hnext & _).
    apply (Hnext clock). reflexivity.
  - destruct (handler_reads_its_question_in_bounds
                (firstQuestionAnswered ++ [ClickNext clock]))
      as (_ & Hkept & _).
    apply (Hkept clock). reflexivity.
  - destruct (handler_reads_its_question_in_bounds oneRequestPending)
      as (_ & _ & Hempty).
    apply (Hempty 0%nat). reflexivity.
Defined.


(* ================================================================== *)
(** ** The sign-in gate *)
(* ================================================================== *)

Lemma run_keeps_signed_in : forall more a,
  isAuthenticated (state a) = true ->
  isAuthenticated (state (run more a)) = true.
Proof.
  induction more as [| e rest IH]; intros a Hauth; simpl.
  - exact Hauth.
  - apply IH. now apply step_keeps_signed_in.
Qed.

(** X1. Until the user signs in nothing can be started: the session is
    still the initial one, the search box is empty, no request is pending
    and no alert was shown.  Once signed in, no sequence of events signs
    the user out again. *)
Theorem nothing_happens_before_sign_in :
  forall events : list Event,
    let a := run events initialApp in
    (isAuthenticated (state a) = false ->
       state a = INITIAL_STATE /\ searchQuery a = []
       /\ inFlight a = [] /\ alerts a = [])
    /\ (isAuthenticated (state a) = true ->
        forall more, isAuthenticated (state (run more a)) = true).
Proof.
  intros events a. split.
  - intros Hauth.
    destruct (run_appInvariant events) as (_ & Hout & _).
    destruct (Hout Hauth) as (Hs & Hq & Hfl & Hal & _).
    repeat split; assumption.
  - intros Hauth more. now apply run_keeps_signed_in.
Qed.

Lemma nothing_happens_before_sign_in_witness :
  state (run [ClickNav dashboard; ClickLogo; SubmitQuery] initialApp)
    = INITIAL_STATE
  /\ isAuthenticated
       (state (run [ClickLogo; ClickTryAnother] (run [ClickSignIn] initialApp)))
     = true.
Proof.
  split.
  - destruct (nothing_happens_before_sign_in
                [ClickNav dashboard; ClickLogo; SubmitQuery]) as (Hout & _).
    apply Hout. reflexivity.
  - destruct (nothing_happens_before_sign_in [ClickSignIn]) as (_ & Hin).
    apply Hin. reflexivity.
Defined.

(* ================================================================== *)
(** ** Starting a generation from the controls *)
(* ================================================================== *)

Lemma blank_iff_trim_nil : forall q,
  negb (JsString.truthy (JsString.trim q)) = true <-> JsString.trim q = [].
Proof.
  intros q. destruct (JsString.trim q); simpl; split; intros H;
    try reflexivity; discriminate.
Qed.

Lemma callGenerateMCQs_blank : forall g a,
  JsString.trim (searchQuery a) = [] -> callGenerateMCQs g a = a.
Proof.
  intros g a Hblank. unfold callGenerateMCQs, generateMCQs.
  rewrite Hblank. reflexivity.
Qed.

Lemma callGenerateMCQs_started : forall g a,
  JsString.trim (searchQuery a) <> [] ->
  callGenerateMCQs g a =
    {| state :=
         set_grade (Some (orElse g (orElse (grade (state a)) G11)))
           (set_topic (searchQuery a) (set_isLoading true (state a)));
       searchQuery := searchQuery a;
       currentView := currentView a;
       inFlight :=
         inFlight a
         ++ [{| request_topic := searchQuery a;
                request_grade := orElse g (orElse (grade (state a)) G11) |}];
       alerts := alerts a;
       retainedNext := retainedNext a;
       gateExiting := gateExiting a |}.
Proof.
  intros g a Hq. unfold callGenerateMCQs, generateMCQs.
  destruct (JsString.trim (searchQuery a)) eqn:Ht; [congruence |].
  reflexivity.
Qed.

(** X2. A subject card, like a topic tag, writes its own text into the
    search box but calls [generateMCQs] with the query of the render that
    drew it.  With a blank search box the click therefore starts nothing;
    otherwise the request and the recorded topic are the previous content
    of the search box, not the text of the card or tag. *)
Theorem cards_and_tags_send_the_previous_query :
  (forall (a : App) (subject : jsstring) (g : Grade),
      enabled a (ClickStartPractice subject g) = true ->
      let a' := step a (ClickStartPractice subject g) in
      searchQuery a' = practiceQuery subject g
      /\ currentView a' = home
      /\ (JsString.trim (searchQuery a) = [] ->
            state a' = state a /\ inFlight a' = inFlight a)
      /\ (JsString.trim (searchQuery a) <> [] ->
            inFlight a'
              = inFlight a
                ++ [{| request_topic := searchQuery a; request_grade := g |}]
            /\ topic (state a') = searchQuery a
            /\ grade (state a') = Some g
            /\ isLoading (state a') = true))
  /\ (forall (a : App) (tag : jsstring),
        enabled a (ClickTag tag) = true ->
        let a' := step a (ClickTag tag) in
        searchQuery a' = tag
        /\ (JsString.trim (searchQuery a) = [] ->
              state a' = state a /\ inFlight a' = inFlight a)
        /\ (JsString.trim (searchQuery a) <> [] ->
              exists g',
                inFlight a'
                  = inFlight a
                    ++ [{| request_topic := searchQuery a;
                           request_grade := g' |}]
                /\ topic (state a') = searchQuery a
                /\ isLoading (state a') = true)).
Proof.
  split.
  - intros a subject g Hen a'. subst a'. unfold step. rewrite Hen.
    cbn [fire]. split; [reflexivity |]. split; [reflexivity |]. split.
    + intros Hblank. rewrite (callGenerateMCQs_blank _ a Hblank).
      split; reflexivity.
    + intros Hq. rewrite (callGenerateMCQs_started _ a Hq).
      repeat split; reflexivity.
  - intros a tag Hen a'. subst a'. unfold step. rewrite Hen.
    cbn [fire]. split; [reflexivity |]. split.
    + intros Hblank. rewrite (callGenerateMCQs_blank _ a Hblank).
      split; reflexivity.
    + intros Hq. rewrite (callGenerateMCQs_started _ a Hq).
      eexists. repeat split; reflexivity.
Qed.

Lemma cards_and_tags_send_the_previous_query_witness :
  state (step (run [ClickSignIn; GateExitComplete] initialApp)
           (ClickStartPractice (str "Physics") G11))
    = state (run [ClickSignIn; GateExitComplete] initialApp)
  /\ topic (state (step (run loadingOnSubjects initialApp) secondStart))
     = str "Physics Class 11".
Proof.
  destruct cards_and_tags_send_the_previous_query as (Hcard & _).
  split.
  - destruct (Hcard (run [ClickSignIn; GateExitComplete] initialApp)
                (str "Physics") G11 eq_refl)
      as (_ & _ & Hblank & _).
    apply Hblank. reflexivity.
  - destruct (Hcard (run loadingOnSubjects initialApp) (str "Chemistry") G12
                eq_refl) as (_ & _ & _ & Hsent).
    destruct Hsent as (_ & Htopic & _); [vm_compute; discriminate |].
    exact Htopic.
Defined.

Lemma forallb_false_iff : forall (A : Type) (f : A -> bool) (l : list A),
  forallb f l <> true <-> exists x, In x l /\ f x = false.
Proof.
  intros A f l. induction l as [| x rest IH]; simpl.
  - split; [congruence | intros (x & [] & _)].
  - destruct (f x) eqn:Hx; simpl.
    + rewrite IH. split.
      * intros (y & Hy & Hfy). exists y. auto.
      * intros (y & [-> | Hy] & Hfy); [congruence | eauto].
    + split; [intros _; exists x; auto | discriminate].
Qed.

(** X3. [generateMCQs] goes ahead exactly when the query holds at least
    one code unit that is not white space.  It then records the query as
    typed (untrimmed) as topic and in the request, takes the grade of the
    call, else the grade the session already has, else 11, switches
    [isLoading] on and leaves questions, index, score, selection,
    [isFinished] and the ledger as they are. *)
Theorem generation_starts_iff_query_has_a_visible_character :
  forall (q : jsstring) (g : option Grade) (s : QuizState),
    (StartGeneration q g s <> None
     <-> exists c, In c q /\ JsString.isWhiteSpace c = false)
    /\ (forall s' r,
          StartGeneration q g s = Some (s', r) ->
          topic s' = q /\ request_topic r = q
          /\ isLoading s' = true
          /\ grade s' = Some (request_grade r)
          /\ request_grade r
             = match g, grade s with
               | Some chosen, _ => chosen
               | None, Some kept => kept
               | None, None => G11
               end
          /\ questions s' = questions s
          /\ currentQuestionIndex s' = currentQuestionIndex s
          /\ score s' = score s
          /\ isFinished s' = isFinished s
          /\ selectedAnswer s' = selectedAnswer s
          /\ history s' = history s).
Proof.
  intros q g s. split.
  - rewrite <- forallb_false_iff, <- trim_nil_iff.
    unfold StartGeneration, generateMCQs.
    destruct (JsString.trim q); simpl; split; congruence.
  - intros s' r. unfold StartGeneration, generateMCQs.
    destruct (negb _); [discriminate |].
    intros H. injection H as <- <-.
    destruct g as [chosen |]; destruct (grade s) as [kept |];
      repeat split; reflexivity.
Qed.

Lemma generation_starts_iff_query_has_a_visible_character_witness :
  grade (set_grade (Some G12)
           (set_topic (str " Waves ") (set_isLoading true twoQuestionSession)))
  = Some G12
  /\ StartGeneration (str " Waves ") None twoQuestionSession <> None.
Proof.
  destruct (generation_starts_iff_query_has_a_visible_character
              (str " Waves ") (Some G12) twoQuestionSession) as (_ & Heffect).
  destruct (generation_starts_iff_query_has_a_visible_character
              (str " Waves ") None twoQuestionSession) as (Hiff & _).
  split.
  - destruct (Heffect _ _ eq_refl) as (_ & _ & _ & Hgrade & _). exact Hgrade.
  - apply Hiff. exists 87%N. split; [vm_compute; tauto | reflexivity].
Defined.

(* ================================================================== *)
(** ** Pending requests *)
(* ================================================================== *)

(** X4. [resetQuiz] does not cancel a pending request.  After a reset by
    the header logo the request is still in flight, and when its answer
    arrives the questions are installed in the reset session: a quiz with
    an empty topic and no grade.  Finishing such a quiz puts an entry in
    the ledger whose [grade] is [null], whatever the type of [QuizResult]
    says. *)
Theorem reset_does_not_cancel_a_pending_generation :
  (forall (a : App) (k : nat) (qs : list MCQ),
      (k < List.length (inFlight a))%nat ->
      let a1 := step a ClickLogo in
      let a2 := step a1 (Settle k (Resolved qs)) in
      inFlight a1 = inFlight a
      /\ isLoading (state a1) = false
      /\ questions (state a2) = qs
      /\ topic (state a2) = []
      /\ grade (state a2) = None
      /\ history (state a2) = history (state a))
  /\ (exists a r,
        runChecked resetWhilePending initialApp = Some a
        /\ history (state a) = [r]
        /\ result_grade r = None
        /\ result_topic r = []).
Proof.
  split.
  - intros a k qs Hk. cbn zeta.
    change (step a ClickLogo) with (fire a ClickLogo).
    assert (Hen : enabled (fire a ClickLogo) (Settle k (Resolved qs)) = true)
      by (cbn [enabled fire with_currentView with_searchQuery with_state
               inFlight]; now apply Nat.ltb_lt).
    unfold step. rewrite Hen. repeat split; reflexivity.
  - eexists. eexists. split; [vm_compute; reflexivity |].
    repeat split.
Qed.

Lemma reset_does_not_cancel_a_pending_generation_witness :
  questions
    (state (step (step (run oneRequestPending initialApp) ClickLogo)
              (Settle 0 (Resolved [mcq 0; mcq 1]))))
  = [mcq 0; mcq 1].
Proof.
  destruct reset_does_not_cancel_a_pending_generation as (Hgeneral & _).
  apply (Hgeneral (run oneRequestPending initialApp) 0%nat [mcq 0; mcq 1]).
  vm_compute. lia.
Defined.

Lemma removeNth_length : forall (A : Type) (l : list A) (k : nat),
  (k < List.length l)%nat ->
  S (List.length (removeNth k l)) = List.length l.
Proof.
  intros A l. induction l as [| x rest IH]; intros k Hk; simpl in *.
  - lia.
  - destruct k as [| k']; [reflexivity |].
    simpl. rewrite IH by lia. reflexivity.
Qed.

(** X5. The spinner is never left without a request to wait for:
    whenever [isLoading] is set some request is still pending.  Every
    answer that arrives, success or failure, switches [isLoading] off and
    retires exactly one request, also when others are still pending. *)
Theorem spinner_only_while_a_request_is_pending :
  forall events : list Event,
    let a := run events initialApp in
    (isLoading (state a) = true -> inFlight a <> [])
    /\ (forall k outcome,
          enabled a (Settle k outcome) = true ->
          isLoading (state (step a (Settle k outcome))) = false
          /\ S (List.length (inFlight (step a (Settle k outcome))))
             = List.length (inFlight a)).
Proof.
  intros events a. split.
  - destruct (run_appInvariant events) as (_ & _ & Hload & _). exact Hload.
  - intros k outcome Hen. unfold step. rewrite Hen.
    cbn [enabled] in Hen. apply Nat.ltb_lt in Hen.
    destruct outcome; cbn; (split; [reflexivity |]);
      now apply removeNth_length.
Qed.

Lemma spinner_only_while_a_request_is_pending_witness :
  inFlight (run loadingOnSubjects initialApp) <> []
  /\ isLoading
       (state (step (run (loadingOnSubjects ++ [secondStart]) initialApp)
                 (Settle 1 Rejected))) = false.
Proof.
  split.
  - destruct (spinner_only_while_a_request_is_pending loadingOnSubjects)
      as (Hload & _).
    apply Hload. reflexivity.
  - destruct (spinner_only_while_a_request_is_pending
                (loadingOnSubjects ++ [secondStart])) as (_ & Hsettle).
    apply (Hsettle 1%nat Rejected). reflexivity.
Defined.



(* ================================================================== *)
(** ** The ledger, the result screen and the dashboard *)
(* ================================================================== *)



(** X6. Every entry the application ever puts in the ledger counts at
    least one question and a score that is not negative, so none of the
    quotients [score / totalQuestions] of Dashboard and Analytics divides
    by zero.  As long as no click lands on a Next button kept by line 395
    the score of an entry is at most its number of questions; with such a
    click it need not be: [staleScoreThenFinish] records 3 out of 2. *)
Theorem ledger_entries_never_divide_by_zero :
  (forall (events : list Event) (r : QuizResult),
      In r (history (state (run events initialApp))) ->
      totalQuestions r <> 0 /\ 1 <= totalQuestions r /\ 0 <= result_score r)
  /\ (forall (events : list Event) (r : QuizResult),
        freshClicksOnly events = true ->
        In r (history (state (run events initialApp))) ->
        result_score r <= totalQuestions r)
  /\ (exists a r,
        runChecked staleScoreThenFinish initialApp = Some a
        /\ history (state a) = [r]
        /\ result_score r = 3 /\ totalQuestions r = 2).
Proof.
  split; [| split].
  - intros events r Hin.
    destruct (run_appInvariant events) as ((_ & _ & _ & _ & _ & Hled) & _).
    rewrite Forall_forall in Hled.
    destruct (Hled r Hin) as (Hscore & Hone). repeat split; lia.
  - intros events r Hfresh Hin.
    destruct (freshClicksOnly_run events Hfresh) as (_ & _ & _ & _ & Hled).
    rewrite Forall_forall in Hled.
    destruct (Hled r Hin) as (Hscore & _). lia.
  - do 2 eexists. split; [vm_compute; reflexivity |]. repeat split.
Qed.

Lemma ledger_entries_never_divide_by_zero_witness :
  totalQuestions
    {| result_topic := []; result_grade := None; result_score := 1;
       totalQuestions := 1; date := clock |} <> 0
  /\ result_score
       {| result_topic := []; result_grade := None; result_score := 1;
          totalQuestions := 1; date := clock |}
     <= totalQuestions
          {| result_topic := []; result_grade := None; result_score := 1;
             totalQuestions := 1; date := clock |}.
Proof.
  destruct ledger_entries_never_divide_by_zero as (Hsane & Hfresh & _).
  split.
  - apply (Hsane resetWhilePending). vm_compute. left. reflexivity.
  - apply (Hfresh resetWhilePending); [reflexivity |].
    vm_compute. left. reflexivity.
Defined.

(** X7. Whenever the session is finished, the question list is not
    empty, nothing is selected, and the newest ledger entry, the first row
    of the dashboard, carries exactly the score the "Quiz Complete" screen
    shows.  As long as no click lands on a Next button kept by line 395,
    the index is moreover the last one, the score is at most the number of
    questions, and that entry counts the questions of the session. *)
Theorem result_screen_shows_the_score_of_the_newest_entry :
  forall events : list Event,
    let s := state (run events initialApp) in
    isFinished s = true ->
    (questions s <> []
     /\ selectedAnswer s = None
     /\ 0 <= score s
     /\ exists r rest,
          history s = r :: rest
          /\ result_score r = score s
          /\ hd_error (recentQuizzes s) = Some r)
    /\ (freshClicksOnly events = true ->
        currentQuestionIndex s = jsLength (questions s) - 1
        /\ score s <= jsLength (questions s)
        /\ exists r rest,
             history s = r :: rest
             /\ totalQuestions r = jsLength (questions s)).
Proof.
  intros events s Hfin. subst s. split.
  - destruct (run_appInvariant events)
      as ((Hscore & _ & Hopen & _ & Hshape & _) & _).
    destruct (Hshape Hfin) as (Hqs & r & rest & Hhist & Hrs).
    split; [exact Hqs |]. split.
    + destruct (selectedAnswer (state (run events initialApp))) eqn:Hsel;
        [| reflexivity].
      unfold selectionOnOpenQuestion in Hopen. rewrite Hsel in Hopen.
      destruct Hopen as (Hcontra & _); [discriminate | congruence].
    + split; [exact Hscore |]. exists r, rest.
      repeat split; try assumption.
      unfold recentQuizzes, slice0. rewrite Hhist. reflexivity.
  - intros Hfresh.
    destruct (freshClicksOnly_run events Hfresh)
      as ((_ & Hbound & _) & _ & Hshape & _).
    destruct (Hshape Hfin) as (Hlast & r & rest & Hhist & _ & Hrt).
    unfold scoreBounded in Hbound. rewrite Hfin in Hbound.
    split; [exact Hlast |]. split; [lia |]. eauto.
Qed.

Lemma result_screen_shows_the_score_of_the_newest_entry_witness :
  score (state (run staleFinishOnNewQuiz initialApp)) = 2
  /\ currentQuestionIndex (state (run resetWhilePending initialApp))
     = jsLength (questions (state (run resetWhilePending initialApp))) - 1.
Proof.
  split.
  - destruct (result_screen_shows_the_score_of_the_newest_entry
                staleFinishOnNewQuiz eq_refl)
      as ((_ & _ & _ & r & rest & Hhist & Hscore & _) & _).
    rewrite <- Hscore.
    assert (Hr : Some r
                 = hd_error (history (state (run staleFinishOnNewQuiz
                                               initialApp))))
      by (rewrite Hhist; reflexivity).
    vm_compute in Hr. injection Hr as ->. reflexivity.
  - destruct (result_screen_shows_the_score_of_the_newest_entry
                resetWhilePending eq_refl) as (_ & Hfresh).
    destruct (Hfresh eq_refl) as (Hlast & _). exact Hlast.
Defined.

(** X8. The caption of a Next button tells what its click does, up to a
    point.  For the button the current render returns: "Finish Quiz"
    finishes the session, shows the result screen and adds one ledger
    entry; "Next Question" moves to the following question, which exists,
    keeps the card on screen and leaves the ledger alone; and the progress
    label "Question i of n" has [1 <= i <= n].  For the button line 395
    still shows, the caption is the one of the render that drew it:
    "Finish Quiz" still finishes the session with one new entry, but "Next
    Question" only adds one to the index, and the question there need not
    exist: after [doubleClickOnNext] the index is 2 of 2. *)
Theorem next_button_caption_and_its_effect :
  forall (events : list Event) (now : jsstring),
    let a := run events initialApp in
    (enabled a (ClickNext now) = true ->
     let a' := step a (ClickNext now) in
     (1 <= fst (progressLabel (state a)) <= snd (progressLabel (state a)))
     /\ (nextButtonCaption (state a) = FinishQuiz ->
           isFinished (state a') = true
           /\ resultRendered a' = true
           /\ List.length (history (state a'))
              = S (List.length (history (state a))))
     /\ (nextButtonCaption (state a) = NextQuestion ->
           isFinished (state a') = false
           /\ currentQuestionIndex (state a')
              = currentQuestionIndex (state a) + 1
           /\ (exists q, currentMCQ (state a') = Some q)
           /\ questionCardRendered a' = true
           /\ history (state a') = history (state a)))
    /\ (enabled a (ClickRetainedNext now) = true ->
        let a' := step a (ClickRetainedNext now) in
        exists captured,
          retainedNext a = Some captured
          /\ (nextButtonCaption captured = FinishQuiz ->
                isFinished (state a') = true
                /\ resultRendered a' = true
                /\ List.length (history (state a'))
                   = S (List.length (history (state a))))
          /\ (nextButtonCaption captured = NextQuestion ->
                isFinished (state a') = false
                /\ currentQuestionIndex (state a')
                   = currentQuestionIndex (state a) + 1
                /\ history (state a') = history (state a)))
    /\ (exists stuck,
          runChecked doubleClickOnNext initialApp = Some stuck
          /\ progressLabel (state stuck) = (3, 2)
          /\ currentMCQ (state stuck) = None
          /\ renderThrows stuck = true).
Proof.
  intros events now a.
  destruct (run_appInvariant events) as ((_ & _ & _ & Hopt & _) & _ & _ & Hkept).
  fold a in Hopt, Hkept.
  split; [| split].
  - intros Hen a'. subst a'.
    assert (Hnext : nextButtonRendered a = true) by exact Hen.
    pose proof (fresh_next_in_bounds events Hnext) as Hrange.
    fold a in Hrange.
    destruct (nextButtonRendered_inv a Hnext) as (Hcard & _).
    destruct (questionCardRendered_inv a Hcard)
      as (Hauth & Hview & Hlen & Hfin & Hgate).
    destruct (proj2 (jsIndex_Some_iff _ _ _) Hrange) as [q Hq].
    unfold step. rewrite Hen. cbn [fire].
    rewrite (nextQuestion_defined now _ _ q Hq). cbn zeta.
    unfold nextButtonCaption, progressLabel. cbn [fst snd].
    split; [lia |].
    destruct (Z.eqb_spec (currentQuestionIndex (state a))
                (jsLength (questions (state a)) - 1)) as [Hlast | Hmid].
    + split; [| discriminate]. intros _.
      split; [reflexivity |]. split; [| reflexivity].
      unfold resultRendered, contentRendered. cbn.
      rewrite Hauth, Hview, Hgate. reflexivity.
    + split; [discriminate |]. intros _.
      split; [exact Hfin |]. split; [reflexivity |]. split.
      * apply jsIndex_Some_iff. cbn. lia.
      * split; [| reflexivity].
        unfold questionCardRendered, contentRendered. cbn.
        rewrite Hauth, Hview, Hfin, Hgate. cbn.
        rewrite andb_true_r. now apply Z.ltb_lt.
  - intros Hen a'. subst a'.
    assert (Hshown : retainedNextShown a = true) by exact Hen.
    destruct (retainedNextShown_inv a Hshown) as (Hcard & captured & Hcap).
    destruct (questionCardRendered_inv a Hcard)
      as (Hauth & Hview & Hlen & Hfin & Hgate).
    destruct (Hkept captured Hcap) as (_ & i & q & _ & Hq).
    exists captured. split; [exact Hcap |].
    unfold step. rewrite Hen. cbn [fire]. rewrite Hcap.
    rewrite (nextQuestion_defined now _ _ q Hq). cbn zeta.
    unfold nextButtonCaption.
    destruct (_ =? _).
    + split; [| discriminate]. intros _.
      split; [reflexivity |]. split; [| reflexivity].
      unfold resultRendered, contentRendered. cbn.
      rewrite Hauth, Hview, Hgate. reflexivity.
    + split; [discriminate |]. intros _.
      split; [exact Hfin |]. split; reflexivity.
  - eexists. split; [vm_compute; reflexivity |]. repeat split.
Qed.

Lemma next_button_caption_and_its_effect_witness :
  currentQuestionIndex
    (state (step (run firstQuestionAnswered initialApp) (ClickNext clock)))
  = currentQuestionIndex (state (run firstQuestionAnswered initialApp)) + 1
  /\ isFinished
       (state (step (run (removelast staleFinishOnNewQuiz) initialApp)
                 (ClickRetainedNext clock))) = true.
Proof.
  split.
  - destruct (next_button_caption_and_its_effect firstQuestionAnswered clock)
      as (Hfresh & _).
    destruct (Hfresh eq_refl) as (_ & _ & Hnext).
    destruct (Hnext eq_refl) as (_ & Hidx & _).
    exact Hidx.
  - destruct (next_button_caption_and_its_effect
                (removelast staleFinishOnNewQuiz) clock) as (_ & Hkept & _).
    destruct (Hkept eq_refl) as (captured & Hcap & Hfinish & _).
    vm_compute in Hcap. injection Hcap as <-.
    destruct (Hfinish eq_refl) as (Hfin & _). exact Hfin.
Defined.

(** X9. The selected answer is always the index of one of the options of
    the question on screen. *)
Theorem selected_answer_is_an_option_of_the_current_question :
  forall (events : list Event) (i : Z),
    selectedAnswer (state (run events initialApp)) = Some i ->
    exists q,
      currentMCQ (state (run events initialApp)) = Some q
      /\ 0 <= i < jsLength (options q).
Proof.
  intros events i Hsel.
  destruct (run_appInvariant events) as ((_ & _ & _ & Hopt & _) & _).
  now apply Hopt.
Qed.

Lemma selected_answer_is_an_option_of_the_current_question_witness :
  exists q,
    currentMCQ (state (run firstQuestionAnswered initialApp)) = Some q
    /\ 0 <= 0 < jsLength (options q).
Proof.
  apply (selected_answer_is_an_option_of_the_current_question
           firstQuestionAnswered 0 eq_refl).
Defined.

(** X10. The score never goes below zero, and an event changes it in
    three ways only: a click on the rendered Next button adds one point,
    and then the selected answer is the correct one of the current
    question; a reset or the arrival of new questions puts it back to 0;
    and a click on the Next button kept by line 395 sets it to what the
    render that drew the button would have scored, the score of that
    render plus one if its answer was correct, whatever the score is
    now. *)
Theorem score_moves_only_by_next_or_a_restart :
  (forall events : list Event, 0 <= score (state (run events initialApp)))
  /\ (forall (a : App) (e : Event),
        score (state (step a e)) = score (state a)
        \/ (exists now q,
              e = ClickNext now
              /\ currentMCQ (state a) = Some q
              /\ selectedAnswer (state a) = Some (correctAnswer q)
              /\ score (state (step a e)) = score (state a) + 1)
        \/ (score (state (step a e)) = 0
            /\ (e = ClickLogo \/ e = ClickTryAnother
                \/ exists k qs, e = Settle k (Resolved qs)))
        \/ (exists now captured q,
              e = ClickRetainedNext now
              /\ retainedNext a = Some captured
              /\ currentMCQ captured = Some q
              /\ score (state (step a e))
                 = if strictEq (selectedAnswer captured) (correctAnswer q)
                   then score captured + 1 else score captured)).
Proof.
  split.
  - intros events. destruct (run_appInvariant events) as ((Hscore & _) & _).
    exact Hscore.
  - intros a e. unfold step. destruct (enabled a e); [| left; reflexivity].
    destruct e as [| v | | | text | | tag | idx | now | now | | subject g
                   | k outcome | |];
      try (left; reflexivity).
    + right. right. left. split; [reflexivity | left; reflexivity].
    + left. destruct (SubmitQuery_fire a) as [-> | ->];
        apply (callGenerateMCQs_core None a).
    + left. apply (callGenerateMCQs_core None a).
    + left. cbn. unfold handleAnswerSelect.
      destruct (selectedAnswer (state a)); reflexivity.
    + cbn [fire]. unfold nextQuestion.
      destruct (currentMCQ (state a)) as [q |] eqn:Hq; unfold currentMCQ in Hq;
        rewrite Hq; [| left; reflexivity].
      cbn zeta. unfold strictEq.
      destruct (selectedAnswer (state a)) as [i |] eqn:Hsel.
      * destruct (Z.eqb_spec i (correctAnswer q)) as [-> | Hne].
        -- right. left. exists now, q.
           split; [reflexivity |]. split; [reflexivity |].
           split; [reflexivity |].
           destruct (_ =? _); reflexivity.
        -- left. destruct (_ =? _); reflexivity.
      * left. destruct (_ =? _); reflexivity.
    + cbn [fire]. destruct (retainedNext a) as [captured |] eqn:Hcap;
        [| left; reflexivity].
      destruct (currentMCQ captured) as [q |] eqn:Hq.
      * right. right. right. exists now, captured, q.
        split; [reflexivity |]. split; [reflexivity |].
        split; [exact Hq |].
        rewrite (nextQuestion_defined now captured (state a) q Hq).
        cbn zeta. destruct (_ =? _); reflexivity.
      * left. rewrite (nextQuestion_undefined now captured (state a) Hq).
        reflexivity.
    + right. right. left. split; [reflexivity | right; left; reflexivity].
    + left. apply (callGenerateMCQs_core (Some g) a).
    + destruct outcome as [qs |].
      * right. right. left. split; [reflexivity |]. right. right. eauto.
      * left. reflexivity.
Qed.



(* ================================================================== *)
(** ** What the home view shows *)
(* ================================================================== *)



(* ================================================================== *)
(** ** A generation started during a quiz *)
(* ================================================================== *)

(** X14. A generation started from a subject card while a quiz is under
    way does not put the quiz away: questions, index, score and selection
    stay, and the click leads to the home view, where the spinner and the
    question card are shown together whenever the card was showable
    before.  A quiz finished in that state is booked in the ledger under
    the topic and grade of the new request. *)
Theorem quiz_stays_answerable_while_loading :
  forall (a : App) (subject : jsstring) (g : Grade),
    enabled a (ClickStartPractice subject g) = true ->
    JsString.trim (searchQuery a) <> [] ->
    let a' := step a (ClickStartPractice subject g) in
    spinnerRendered a' = true
    /\ questions (state a') = questions (state a)
    /\ currentQuestionIndex (state a') = currentQuestionIndex (state a)
    /\ score (state a') = score (state a)
    /\ selectedAnswer (state a') = selectedAnswer (state a)
    /\ questionCardRendered a'
       = (0 <? jsLength (questions (state a))) && negb (isFinished (state a))
    /\ (forall now s',
          currentQuestionIndex (state a) = jsLength (questions (state a)) - 1 ->
          nextQuestion now (state a') (state a') = Normal s' ->
          exists r,
            history s' = r :: history (state a)
            /\ result_topic r = searchQuery a
            /\ result_grade r = Some g).
Proof.
  intros a subject g Hen Hq a'. subst a'.
  assert (Hshown : isAuthenticated (state a) = true /\ gateExiting a = false).
  { cbn [enabled] in Hen. unfold contentRendered in Hen.
    apply andb_prop in Hen. destruct Hen as [Hen _].
    apply andb_prop in Hen. destruct Hen as [Hen _].
    apply andb_prop in Hen. destruct Hen as [Hauth Hgate].
    apply negb_true_iff in Hgate. split; assumption. }
  destruct Hshown as (Hauth & Hgate).
  unfold step. rewrite Hen. cbn [fire].
  rewrite (callGenerateMCQs_started _ a Hq).
  unfold spinnerRendered, questionCardRendered, contentRendered. cbn.
  rewrite Hauth, Hgate. cbn.
  do 6 (split; [reflexivity |]).
  intros now s' Hlast Hrun. unfold nextQuestion in Hrun. cbn in Hrun.
  destruct (jsIndex (questions (state a)) (currentQuestionIndex (state a)));
    [| discriminate].
  rewrite Hlast, Z.eqb_refl in Hrun. injection Hrun as <-.
  eexists. split; [reflexivity |]. split; reflexivity.
Qed.

Lemma quiz_stays_answerable_while_loading_witness :
  questionCardRendered
    (step (run (firstQuestionAnswered ++ [ClickNav subjects]) initialApp)
       (ClickStartPractice (str "Biology") G12)) = true
  /\ spinnerRendered
       (step (run (firstQuestionAnswered ++ [ClickNav subjects]) initialApp)
          (ClickStartPractice (str "Biology") G12)) = true.
Proof.
  assert (Hq : JsString.trim
                 (searchQuery
                    (run (firstQuestionAnswered ++ [ClickNav subjects])
                       initialApp)) <> [])
    by (vm_compute; discriminate).
  destruct (quiz_stays_answerable_while_loading
              (run (firstQuestionAnswered ++ [ClickNav subjects]) initialApp)
              (str "Biology") G12 eq_refl Hq)
    as (Hspin & _ & _ & _ & _ & Hcard & _).
  split; [| exact Hspin].
  rewrite Hcard. reflexivity.
Defined.

(* ================================================================== *)
(** ** What only the kept Next button breaks *)
(* ================================================================== *)

(** X15. As long as no click lands on a Next button kept by line 395,
    the session keeps [score <= currentQuestionIndex + (1 if isFinished
    else 0)], the index stays inside a non-empty question list, and the
    question card is never rendered without a current question. *)
Theorem without_kept_clicks_score_and_index_stay_in_bounds :
  forall events : list Event,
    freshClicksOnly events = true ->
    let a := run events initialApp in
    scoreBounded (state a)
    /\ indexInRange (state a)
    /\ renderThrows a = false.
Proof.
  intros events Hfresh a.
  destruct (freshClicksOnly_run events Hfresh) as ((Hrange & Hbound & _) & _).
  fold a in Hrange, Hbound.
  split; [exact Hbound |]. split; [exact Hrange |].
  unfold renderThrows.
  destruct (questionCardRendered a) eqn:Hcard; [| reflexivity].
  destruct (questionCardRendered_inv a Hcard) as (_ & _ & Hlen & _).
  destruct Hrange as (Hlo & [Hnil | Hlt]).
  - rewrite Hnil in Hlen. unfold jsLength in Hlen. simpl in Hlen. lia.
  - assert (Hin : 0 <= currentQuestionIndex (state a)
                       < jsLength (questions (state a))) by lia.
    apply jsIndex_Some_iff in Hin. destruct Hin as (q & Hq).
    unfold currentMCQ. rewrite Hq. reflexivity.
Qed.

Lemma without_kept_clicks_score_and_index_stay_in_bounds_witness :
  scoreBounded (state (run resetWhilePending initialApp))
  /\ renderThrows (run (firstQuestionAnswered ++ [ClickNext clock]) initialApp)
     = false.
Proof.
  split.
  - destruct (without_kept_clicks_score_and_index_stay_in_bounds
                resetWhilePending eq_refl) as (Hbound & _).
    exact Hbound.
  - destruct (without_kept_clicks_score_and_index_stay_in_bounds
                (firstQuestionAnswered ++ [ClickNext clock]) eq_refl)
      as (_ & _ & Hrender).
    exact Hrender.
Defined.
